(** * Skill spread analyzer: the three request handlers

    A shallow embedding of the server side of the repository:
    - [Index]   : [handleApiRequest] of [src/index.js] (stand-alone server),
    - [RunData] : the serverless handler that takes the run [id] alone and
                  returns the raw run together with the skill dictionary
                  (full-data variant),
    - [Api]     : the serverless handler of [src/api.js] that returns the
                  damage breakdown of one player in one gate,
    - [Server]  : the HTTP server of [src/index.js] around
                  [handleApiRequest],
    - [Client]  : [generateCleanJson], the breakdown that the page served by
                  [src/index.js] computes in the browser.

    A handler is a function of the request and of what the two upstream
    services answer; it returns the outbound calls it issued, in order, and
    its response.  Exceptions and rejected promises are an error monad,
    and the calls are threaded through it.

    JavaScript values are modelled as far as the handlers look at them:
    - a number is an IEEE 754 binary64, with the executable specification
      of the Standard Library ([SpecFloat]); a number whose value is an
      integer (a skill identifier, a hit count, a parsed damage total) is
      carried as that integer, in [Z], and NaN as [None]; identifiers and
      hit counts are taken to be safe integers, and hit counts to be counts,
      so that their sum is the sum of the integers;
    - the two quotients that the code rounds with [toFixed(1)], and the
      conversion of a string that [==] makes, are computed in binary64;
    - identifiers of gates and players, and names, are JSON scalars;
    - a string is the sequence of its UTF-8 bytes;
    - [Array.prototype.sort] is stable, as the language requires since
      ES2019. *)

From stdpp Require Import gmap strings list fin_maps pretty sorting.
From Stdlib Require Import ZArith Ascii SpecFloat.

Local Open Scope Z_scope.

(** ** JavaScript values and operators *)

Module Js.

(** Scalars of a parsed JSON document, and [undefined] for what reading an
    absent property yields.  [JNum n] is the number that the integer [n]
    denotes: [Js.of_Z n]. *)
Inductive jsval :=
| JUndefined
| JNull
| JBool (b : bool)
| JNum (n : Z)
| JStr (s : string).

#[global] Instance jsval_eq_dec : EqDecision jsval.
Proof. solve_decision. Defined.

(** ToBoolean. *)
Definition truthy (v : jsval) : bool :=
  match v with
  | JUndefined | JNull => false
  | JBool b => b
  | JNum n => negb (n =? 0)
  | JStr s => negb (String.eqb s "")
  end.

(** [a || b] *)
Definition or_else (a b : jsval) : jsval := if truthy a then a else b.

(** [!x] for a query parameter, which is a string when present. *)
Definition missing (p : option string) : bool :=
  match p with
  | None => true
  | Some s => String.eqb s ""
  end.

(** *** Numbers (binary64) *)

Definition number := spec_float.

Definition NaN : number := S754_nan.
Definition of_Z (z : Z) : number := binary_normalize 53 1024 z 0 false.
Definition of_int (o : option Z) : number :=
  match o with Some z => of_Z z | None => NaN end.
Definition fdiv : number -> number -> number := SFdiv 53 1024.
Definition fmul : number -> number -> number := SFmul 53 1024.

(** The integer that a number with an integral value is.  The infinities
    are the integers of magnitude 2^1024, which [of_Z] takes back to them,
    so that the order and the sign of a difference are those of the
    numbers. *)
Definition to_Z (x : number) : Z :=
  match x with
  | S754_finite s m e =>
      if s then - Z.shiftl (Z.pos m) e else Z.shiftl (Z.pos m) e
  | S754_infinity s => if s then - 2 ^ 1024 else 2 ^ 1024
  | _ => 0
  end.

(** The value of the number nearest to an integer: the integer itself up
    to 2^53, a neighbour beyond. *)
Definition round64 (z : Z) : Z := to_Z (of_Z z).

(** What [x.toFixed(1)] prints: a sign and the decimal digits of an integer
    number of tenths, or, for NaN and for magnitudes of 1e21 and more, the
    ordinary printing of [x]. *)
Inductive fixed1 :=
| Tenths (negative : bool) (n : Z)
| Plain (x : number).

(** The integer [n] for which [n / 10 - m * 2^e] is closest to zero, the
    larger one on a tie. *)
Definition nearest_tenths (m : positive) (e : Z) : Z :=
  match e with
  | Zneg k => (20 * Zpos m + 2 ^ Zpos k) / 2 ^ (Zpos k + 1)
  | _ => 10 * Zpos m * 2 ^ e
  end.

Definition at_least_1e21 (m : positive) (e : Z) : bool :=
  match e with
  | Zneg k => 10 ^ 21 * 2 ^ Zpos k <=? Zpos m
  | _ => 10 ^ 21 <=? Zpos m * 2 ^ e
  end.

Definition toFixed1 (x : number) : fixed1 :=
  match x with
  | S754_zero _ => Tenths false 0
  | S754_finite s m e =>
      if at_least_1e21 m e then Plain x else Tenths s (nearest_tenths m e)
  | _ => Plain x
  end.

(** [parseFloat] of such a printing: the binary64 nearest to the decimal. *)
Definition parseFloat (f : fixed1) : number :=
  match f with
  | Plain x => x
  | Tenths s n =>
      match n with
      | Zpos p => fdiv (S754_finite s p 0) (S754_finite false 10 0)
      | _ => S754_zero s
      end
  end.

(** *** Strings *)

(** [s.replace(/\./g, '')] *)
Fixpoint remove_dots (s : string) : string :=
  match s with
  | EmptyString => EmptyString
  | String c r =>
      if Ascii.eqb c "."%char then remove_dots r else String c (remove_dots r)
  end.

Definition code (c : ascii) : Z := Z.of_N (Ascii.N_of_ascii c).

(** The white space and the line terminators that [parseInt] and ToNumber
    skip.  In ASCII: TAB, LF, VT, FF, CR and the space. *)
Definition is_ws (c : ascii) : bool :=
  let n := code c in
  ((9 <=? n) && (n <=? 13)) || (n =? 32).

(** Outside ASCII, by the bytes of the character: U+00A0; U+1680, U+2000
    to U+200A, U+2028, U+2029, U+202F, U+205F, U+3000 and U+FEFF. *)
Definition is_ws2 (a b : Z) : bool := (a =? 194) && (b =? 160).

Definition is_ws3 (a b c : Z) : bool :=
  (a =? 225) && (b =? 154) && (c =? 128)
  || (a =? 226) && (b =? 128)
     && ((128 <=? c) && (c <=? 138) || (c =? 168) || (c =? 169) || (c =? 175))
  || (a =? 226) && (b =? 129) && (c =? 159)
  || (a =? 227) && (b =? 128) && (c =? 128)
  || (a =? 239) && (b =? 187) && (c =? 191).

Fixpoint skip_ws (s : string) : string :=
  match s with
  | String a r =>
      if is_ws a then skip_ws r
      else if code a <? 128 then s
      else
        match r with
        | String b r' =>
            if is_ws2 (code a) (code b) then skip_ws r'
            else
              match r' with
              | String c r'' =>
                  if is_ws3 (code a) (code b) (code c) then skip_ws r'' else s
              | EmptyString => s
              end
        | EmptyString => s
        end
  | EmptyString => s
  end.

Definition digit_of (c : ascii) : option Z :=
  let n := code c in
  if (48 <=? n) && (n <=? 57) then Some (n - 48) else None.

(** The longest prefix of decimal digits, read as an integer; [acc] is
    [None] until a digit has been seen.  Returns what is left as well. *)
Fixpoint digits (acc : option Z) (s : string) : option Z * string :=
  match s with
  | String c r =>
      match digit_of c with
      | Some d => digits (Some (10 * default 0 acc + d)) r
      | None => (acc, s)
      end
  | EmptyString => (acc, s)
  end.

(** [parseInt(s, 10)]; [None] is NaN.  The result is a number: the
    integer that the digits denote, rounded to binary64.  (Beyond twenty
    significant digits the language lets an engine read the further digits
    as zeros; this is the reading that does not.) *)
Definition parseInt (s : string) : option Z :=
  round64 <$>
    match skip_ws s with
    | String "-" r => Z.opp <$> fst (digits None r)
    | String "+" r => fst (digits None r)
    | r => fst (digits None r)
    end.

(** ToNumber on a string (StringToNumber), as [==] applies it to compare a
    string with a number: white space around a StrNumericLiteral, which is
    a StrDecimalLiteral or a NonDecimalIntegerLiteral; the empty string is
    0 and everything else is NaN. *)

(** What follows the prefix [p] of [s]. *)
Fixpoint after_prefix (p s : string) : option string :=
  match p, s with
  | EmptyString, _ => Some s
  | String a p', String b s' => if Ascii.eqb a b then after_prefix p' s' else None
  | String _ _, EmptyString => None
  end.

(** The digits after the point: they extend the mantissa [m], and [k]
    counts them. *)
Fixpoint fraction (m k : Z) (s : string) : Z * Z * string :=
  match s with
  | String c r =>
      match digit_of c with
      | Some d => fraction (10 * m + d) (k + 1) r
      | None => (m, k, s)
      end
  | EmptyString => (m, k, s)
  end.

(** ExponentPart, if there is one: the exponent and what is left.  [None]
    when an [e] is followed by no digit. *)
Definition ExponentPart (s : string) : option (Z * string) :=
  match s with
  | String c r =>
      if Ascii.eqb c "e" || Ascii.eqb c "E" then
        match r with
        | String "-" r' =>
            match digits None r' with
            | (Some x, rest) => Some (- x, rest)
            | (None, _) => None
            end
        | String "+" r' =>
            match digits None r' with
            | (Some x, rest) => Some (x, rest)
            | (None, _) => None
            end
        | _ =>
            match digits None r with
            | (Some x, rest) => Some (x, rest)
            | (None, _) => None
            end
        end
      else Some (0, s)
  | EmptyString => Some (0, s)
  end.

(** The number nearest to [m * 10^e], with the sign asked for.  (As for
    [parseInt], an engine may read the digits after the twentieth as zeros;
    this is the reading that does not.) *)
Definition decimal (negative : bool) (m e : Z) : number :=
  match m with
  | Zpos p =>
      if 0 <=? e then of_Z ((if negative then -1 else 1) * (Z.pos p * 10 ^ e))
      else fdiv (S754_finite negative p 0)
                (S754_finite false (Z.to_pos (10 ^ (- e))) 0)
  | _ => S754_zero negative
  end.

(** What follows the digits [int] of a StrUnsignedDecimalLiteral: the
    point with its digits, the exponent, and white space to the end. *)
Definition decimal_tail (negative : bool) (int : option Z) (r1 : string)
    : option number :=
  let '(m, k, r2) :=
    match r1 with
    | String "." r => fraction (default 0 int) 0 r
    | _ => (default 0 int, 0, r1)
    end in
  if bool_decide (int = None) && (k =? 0) then None
  else
    match ExponentPart r2 with
    | Some (x, r3) =>
        if String.eqb (skip_ws r3) "" then Some (decimal negative m (x - k)) else None
    | None => None
    end.

Definition StrUnsignedDecimalLiteral (negative : bool) (s : string)
    : option number :=
  match after_prefix "Infinity" s with
  | Some rest =>
      if String.eqb (skip_ws rest) "" then Some (S754_infinity negative) else None
  | None => let '(int, r1) := digits None s in decimal_tail negative int r1
  end.

Definition StrDecimalLiteral (s : string) : option number :=
  match s with
  | String "-" r => StrUnsignedDecimalLiteral true r
  | String "+" r => StrUnsignedDecimalLiteral false r
  | _ => StrUnsignedDecimalLiteral false s
  end.

(** A digit of a hexadecimal, octal or binary literal. *)
Definition digit_in (radix : Z) (c : ascii) : option Z :=
  let n := code c in
  let d :=
    if (48 <=? n) && (n <=? 57) then n - 48
    else if (97 <=? n) && (n <=? 102) then n - 87
    else if (65 <=? n) && (n <=? 70) then n - 55
    else radix in
  if d <? radix then Some d else None.

Fixpoint radix_digits (radix : Z) (acc : option Z) (s : string) : option Z * string :=
  match s with
  | String c r =>
      match digit_in radix c with
      | Some d => radix_digits radix (Some (radix * default 0 acc + d)) r
      | None => (acc, s)
      end
  | EmptyString => (acc, s)
  end.

(** [0x], [0o] or [0b], in either case, and digits; no sign. *)
Definition NonDecimalIntegerLiteral (s : string) : option number :=
  match s with
  | String "0" (String c r) =>
      let radix :=
        if Ascii.eqb c "x" || Ascii.eqb c "X" then 16
        else if Ascii.eqb c "o" || Ascii.eqb c "O" then 8
        else if Ascii.eqb c "b" || Ascii.eqb c "B" then 2
        else 0 in
      if radix =? 0 then None
      else
        match radix_digits radix None r with
        | (Some n, rest) => if String.eqb (skip_ws rest) "" then Some (of_Z n) else None
        | (None, _) => None
        end
  | _ => None
  end.

Definition StringToNumber (s : string) : number :=
  let t := skip_ws s in
  if String.eqb t "" then S754_zero false
  else
    match StrDecimalLiteral t with
    | Some x => x
    | None => default NaN (NonDecimalIntegerLiteral t)
    end.

(** [v === s] for a string [s]. *)
Definition strict_eq_str (v : jsval) (s : string) : bool :=
  match v with
  | JStr t => String.eqb t s
  | _ => false
  end.

(** [v == s] for a string [s] (IsLooselyEqual): a number is compared with
    the number that the string converts to, a boolean is converted too, and
    [null] and [undefined] equal no string. *)
Definition loose_eq_str (v : jsval) (s : string) : bool :=
  match v with
  | JStr t => String.eqb t s
  | JNum n => SFeqb (of_Z n) (StringToNumber s)
  | JBool b => SFeqb (of_Z (if b then 1 else 0)) (StringToNumber s)
  | JUndefined | JNull => false
  end.

(** The template literal [`${n}`] of an integer. *)
Definition show (n : Z) : string := pretty n.

(** *** Arrays and sets *)

(** A [Set] of integers keeps its elements in insertion order, each once. *)
Definition Set_add (s : list Z) (x : Z) : list Z :=
  if decide (x ∈ s) then s else s ++ [x].

(** [new Set(l)] *)
Definition Set_of (l : list Z) : list Z := foldl Set_add [] l.

(** [l.sort(comparefn)].  [comparefn a b] is the sign of the number the
    callback returns, [None] for NaN, which the sort reads as 0.  The sort
    is stable: an element moves behind exactly those it compares greater
    than.  For a consistent comparator this is the result the language
    fixes.  A comparator that returns NaN for some pairs and not for others
    is not consistent, and then the language leaves the order to the
    engine: the order computed here is one of the orders an engine may
    produce, not the one of a particular engine, and what is stated below
    for such lists does not depend on it. *)
Section Sort.
Context {A : Type} (comparefn : A -> A -> option Z).

Definition after (a b : A) : bool := 0 <? default 0 (comparefn a b).

Fixpoint insert_sorted (a : A) (l : list A) : list A :=
  match l with
  | [] => [a]
  | b :: l' => if after a b then b :: insert_sorted a l' else a :: l
  end.

Definition sort (l : list A) : list A := foldr insert_sorted [] l.
End Sort.

(** *** Exceptions, promises and outbound calls *)

Inductive jserror :=
| Error (message : string)      (* [throw new Error(message)] *)
| TypeError (property : string) (* reading or calling [property] of a value that has none *)
| NetworkError                  (* [fetch] rejects *)
| SyntaxError                   (* [res.json()] rejects *)
| ReferenceError (name : string). (* reading a [name] that nothing binds *)

Inductive result (A : Type) :=
| Ok (a : A)
| Throw (e : jserror).
Arguments Ok {A} a.
Arguments Throw {A} e.

#[global] Instance result_ret : MRet result := fun A a => Ok a.
#[global] Instance result_bind : MBind result := fun A B f r =>
  match r with
  | Ok a => f a
  | Throw e => Throw e
  end.

(** [l.map(f)] for a callback that can throw. *)
Fixpoint map_throwing {A B} (f : A -> result B) (l : list A) : result (list B) :=
  match l with
  | [] => Ok []
  | a :: l' => b ← f a; bs ← map_throwing f l'; Ok (b :: bs)
  end.

(** An outbound HTTP request. *)
Inductive call :=
| GetRun (id : string)
| GetSkill (skillId : Z).

(** A computation that issues calls and then returns or throws; a promise
    is one of these. *)
Definition M (A : Type) : Type := list call * result A.

#[global] Instance M_ret : MRet M := fun A a => ([], Ok a).
#[global] Instance M_bind : MBind M := fun A B f m =>
  match m with
  | (t, Ok a) => let '(t', r) := f a in (t ++ t', r)
  | (t, Throw e) => (t, Throw e)
  end.

Definition lift {A} (r : result A) : M A := ([], r).
Definition throw {A} (e : jserror) : M A := ([], Throw e).

(** [p.catch(h)] *)
Definition catch {A} (p : M A) (h : jserror -> A) : M A :=
  match p with
  | (t, Ok a) => (t, Ok a)
  | (t, Throw e) => (t, Ok (h e))
  end.

(** [Promise.all(ps)]: the promises exist already, so every call has been
    issued; the result is the list of values, or a rejection if there is
    one. *)
Fixpoint Promise_all {A} (ps : list (M A)) : M (list A) :=
  match ps with
  | [] => ([], Ok [])
  | (t, r) :: ps' =>
      let '(ts, rs) := Promise_all ps' in
      (t ++ ts, a ← r; l ← rs; Ok (a :: l))
  end.

(** What [fetch] resolves to. *)
Record HttpResponse (A : Type) := {
  ok : bool;
  statusText : string;
  json : result A;       (* [res.json()] *)
}.
Arguments ok {A} _.
Arguments statusText {A} _.
Arguments json {A} _.

End Js.

Import Js.

(** ** The run, as the telemetry service delivers it *)

(** [skill_damage] is [None] when the record has no damage string, and
    [skill_hitCounts] is [None] when it has no array of hit counts. *)
Record SkillRecord := {
  skill_id : Z;
  skill_damage : option string;
  skill_hitCounts : option (list Z);
}.

Record Player := {
  player_id : jsval;
  player_damageDealt : option string;
  player_skills : option (list SkillRecord);
}.

Record Gate := {
  gate_id : jsval;
  gate_name : string;
  gate_players : option (list Player);
}.

Record Run := {
  gates : option (list Gate);
}.

(** The body of a reply of the skill table: JSON [null], or any other
    value, of which only the property [_NameID_txt] is read. *)
Inductive SkillBody :=
| BodyNull
| BodyValue (_NameID_txt : jsval).

(** [data._NameID_txt] *)
Definition get_NameID_txt (data : SkillBody) : result jsval :=
  match data with
  | BodyNull => Throw (TypeError "_NameID_txt")
  | BodyValue v => Ok v
  end.

(** The two upstream services, as one request sees them.  [fetch] rejects
    where the function gives [Throw]. *)
Record Upstream := {
  run_service : string -> result (HttpResponse Run);
  skill_service : Z -> result (HttpResponse SkillBody);
}.

Definition fetch_run (up : Upstream) (id : string) : M (HttpResponse Run) :=
  ([GetRun id], run_service up id).

Definition fetch_skill (up : Upstream) (skillId : Z) : M (HttpResponse SkillBody) :=
  ([GetSkill skillId], skill_service up skillId).

(** An entry [{ id, name }] of the name list. *)
Record Entry := {
  entry_id : Z;
  entry_name : jsval;
}.

(** The skill dictionary: a plain object, keyed by the printed identifier. *)
Abbreviation Dictionary := (gmap string jsval).

(** [dict[id]] *)
Definition dict_get (dict : Dictionary) (id : Z) : jsval :=
  default JUndefined (dict !! show id).

(** [entries.reduce((acc, curr) => { acc[curr.id] = curr.name; return acc; }, {})] *)
Definition dict_of_entries (entries : list Entry) : Dictionary :=
  foldl (fun acc curr => <[show (entry_id curr) := entry_name curr]> acc) ∅ entries.

(** The elements visited by [if (a && a.length > 0) { a.forEach(...) }]. *)
Definition visited {A} (a : option (list A)) : list A :=
  match a with
  | Some l => if (0 <? length l)%nat then l else []
  | None => []
  end.

(** ** [src/index.js]: [handleApiRequest]

    The HTTP server around it is [Server], further down. *)

Module Index.

(** Step 2: the identifiers above zero, each once. *)
Definition uniqueSkillIds (runData : Run) : list Z :=
  foldl (fun allSkillIds gate =>
    foldl (fun allSkillIds player =>
      foldl (fun allSkillIds skill =>
        if 0 <? skill_id skill then Set_add allSkillIds (skill_id skill)
        else allSkillIds)
        allSkillIds (visited (player_skills player)))
      allSkillIds (visited (gate_players gate)))
    [] (visited (gates runData)).

(** Step 3: one lookup per identifier, each with its own fallback. *)
Definition skillNamePromise (up : Upstream) (skillId : Z) : M Entry :=
  catch
    (res ← fetch_skill up skillId;
     data ← lift (json res);
     v ← lift (get_NameID_txt data);
     mret {| entry_id := skillId;
             entry_name := or_else v (JStr ("Unknown Skill (" +:+ show skillId +:+ ")")) |})
    (fun e => {| entry_id := skillId;
                 entry_name := JStr ("Error Skill (" +:+ show skillId +:+ ")") |}).

Definition skillNamePromises (up : Upstream) (ids : list Z) : list (M Entry) :=
  skillNamePromise up <$> ids.

(** Steps 3 and 4: the name resolver. *)
Definition skillDictionary (up : Upstream) (ids : list Z) : M Dictionary :=
  skillNameEntries ← Promise_all (skillNamePromises up ids);
  mret (<["-1" := JStr "Basic Attack"]> (dict_of_entries skillNameEntries)).

Definition handleApiRequest (up : Upstream) (id : string) : M (Run * Dictionary) :=
  runResponse ← fetch_run up id;
  if negb (ok runResponse) then
    throw (Error ("Failed to fetch run data (ID: " +:+ id +:+ "): "
                  +:+ statusText runResponse))
  else
    runData ← lift (json runResponse);
    dict ← skillDictionary up (uniqueSkillIds runData);
    mret (runData, dict).

End Index.

(** ** What a serverless handler answers *)

(** A row of the damage breakdown.  [row_damage] is what [parseInt]
    returned: [None] for NaN. *)
Record Row := {
  row_name : jsval;
  row_damage : option Z;
  row_percent : number;
  row_crit_hits : string;
  row_crit_rate : number;
}.

(** The JSON body: [{ error }] (with the message of the error),
    [{ runData, skillDictionary }], [{ message, data }], or an array of
    rows. *)
Inductive Body :=
| ErrorBody (error : jserror)
| RunBody (runData : Run) (skillDictionary : Dictionary)
| MessageBody (message : string) (data : list Row)
| RowsBody (rows : list Row).

Record Response := {
  status : Z;
  body : Body;
}.

Record Query := {
  query_id : option string;
  query_player_id : option string;
  query_gate_id : option string;
}.

(** [try { ... } catch (error) { return response.status(500).json(...) }] *)
Definition respond (m : M Response) : list call * Response :=
  match m with
  | (t, Ok r) => (t, r)
  | (t, Throw e) => (t, {| status := 500; body := ErrorBody e |})
  end.

(** ** The full-data handler

    Its steps 2 to 4 are, line by line, those of [handleApiRequest]. *)

Module RunData.

Definition uniqueSkillIds (runData : Run) : list Z :=
  foldl (fun allSkillIds gate =>
    foldl (fun allSkillIds player =>
      foldl (fun allSkillIds skill =>
        if 0 <? skill_id skill then Set_add allSkillIds (skill_id skill)
        else allSkillIds)
        allSkillIds (visited (player_skills player)))
      allSkillIds (visited (gate_players gate)))
    [] (visited (gates runData)).

Definition skillNamePromise (up : Upstream) (skillId : Z) : M Entry :=
  catch
    (res ← fetch_skill up skillId;
     data ← lift (json res);
     v ← lift (get_NameID_txt data);
     mret {| entry_id := skillId;
             entry_name := or_else v (JStr ("Unknown Skill (" +:+ show skillId +:+ ")")) |})
    (fun e => {| entry_id := skillId;
                 entry_name := JStr ("Error Skill (" +:+ show skillId +:+ ")") |}).

Definition skillNamePromises (up : Upstream) (ids : list Z) : list (M Entry) :=
  skillNamePromise up <$> ids.

Definition skillDictionary (up : Upstream) (ids : list Z) : M Dictionary :=
  skillNameEntries ← Promise_all (skillNamePromises up ids);
  mret (<["-1" := JStr "Basic Attack"]> (dict_of_entries skillNameEntries)).

Definition handler (up : Upstream) (query : Query) : list call * Response :=
  if missing (query_id query) then
    ([], {| status := 400;
            body := ErrorBody (Error "Missing required query parameter: 'id'") |})
  else
    let id := default "" (query_id query) in
    respond
      (runResponse ← fetch_run up id;
       if negb (ok runResponse) then
         throw (Error ("Failed to fetch run data (ID: " +:+ id +:+ "): "
                       +:+ statusText runResponse))
       else
         runData ← lift (json runResponse);
         dict ← skillDictionary up (uniqueSkillIds runData);
         mret {| status := 200; body := RunBody runData dict |}).

End RunData.

(** ** [src/api.js]: the single-player handler *)

Module Api.

(** Step 3: the identifiers of the player's records, each once. *)
Definition uniqueSkillIds (skills : list SkillRecord) : list Z :=
  Set_of (skill_id <$> skills).

(** Step 4: negative identifiers are named on the spot, the others are
    looked up. *)
Definition skillNamePromise (up : Upstream) (skillId : Z) : M Entry :=
  if skillId <? 0 then
    mret {| entry_id := skillId; entry_name := JStr "Basic Attack" |}
  else
    catch
      (res ← fetch_skill up skillId;
       data ← lift (json res);
       v ← lift (get_NameID_txt data);
       mret {| entry_id := skillId;
               entry_name := or_else v (JStr ("Unknown Skill (" +:+ show skillId +:+ ")")) |})
      (fun e => {| entry_id := skillId;
                   entry_name := JStr ("Error Skill (" +:+ show skillId +:+ ")") |}).

Definition skillNamePromises (up : Upstream) (ids : list Z) : list (M Entry) :=
  skillNamePromise up <$> ids.

(** Steps 4 and 5: the name resolver. *)
Definition skillDictionary (up : Upstream) (ids : list Z) : M Dictionary :=
  skillNameEntries ← Promise_all (skillNamePromises up ids);
  mret (dict_of_entries skillNameEntries).

(** Step 6, the callback of [player.skills.map].  [crits] is
    [hitCounts[1] || 0].  The hit counts are counts, none below zero, with a
    safe integer for their sum: on such counts
    [reduce((a, b) => a + b, 0)] is the sum of the integers. *)
Definition cleanRow (totalDamage : option Z) (dict : Dictionary)
    (skill : SkillRecord) : result Row :=
  text ← match skill_damage skill with
         | Some s => Ok s
         | None => Throw (TypeError "replace")
         end;
  let damage := parseInt (remove_dots text) in
  let percent :=
    parseFloat (toFixed1 (fmul (fdiv (of_int damage) (of_int totalDamage)) (of_Z 100))) in
  hitCounts ← match skill_hitCounts skill with
              | Some h => Ok h
              | None => Throw (TypeError "1")
              end;
  let crits :=
    match hitCounts !! 1%nat with
    | Some c => if c =? 0 then 0 else c
    | None => 0
    end in
  let totalHits := foldl Z.add 0 hitCounts in
  let critHitsStr := show crits +:+ " / " +:+ show totalHits in
  let critRate :=
    if 0 <? totalHits
    then parseFloat (toFixed1 (fmul (fdiv (of_Z crits) (of_Z totalHits)) (of_Z 100)))
    else of_Z 0 in
  Ok {| row_name :=
          or_else (dict_get dict (skill_id skill))
             (JStr ("Unknown Skill (" +:+ show (skill_id skill) +:+ ")"));
        row_damage := damage;
        row_percent := percent;
        row_crit_hits := critHitsStr;
        row_crit_rate := critRate |}.

(** [(a, b) => b.damage - a.damage]: NaN if one of the two is.  The
    difference of the integers has the sign of the difference of the
    numbers, and is 0 for two infinities of one sign, where that difference
    is NaN, which the sort reads as 0. *)
Definition byDamage (a b : Row) : option Z :=
  match row_damage b, row_damage a with
  | Some y, Some x => Some (y - x)
  | _, _ => None
  end.

(** Step 6: the aggregator proper. *)
Definition cleanedData (totalDamage : option Z) (dict : Dictionary)
    (skills : list SkillRecord) : result (list Row) :=
  rows ← map_throwing (cleanRow totalDamage dict) skills;
  Ok (sort byDamage rows).

(** [parseInt(player.damageDealt.replace(/\./g, ''), 10)] *)
Definition totalDamage (player : Player) : result (option Z) :=
  match player_damageDealt player with
  | Some s => Ok (parseInt (remove_dots s))
  | None => Throw (TypeError "replace")
  end.

(** Steps 2b to 7: what the handler does with the player it has found. *)
Definition analyze (up : Upstream) (player : Player) : M Response :=
  total ← lift (totalDamage player);
  if bool_decide (total = Some 0) then
    mret {| status := 200;
            body := MessageBody "Player has 0 damage for this gate." [] |}
  else
    skills ← lift (match player_skills player with
                   | Some l => Ok l
                   | None => Throw (TypeError "map")
                   end);
    dict ← skillDictionary up (uniqueSkillIds skills);
    rows ← lift (cleanedData total dict skills);
    mret {| status := 200; body := RowsBody rows |}.

(** [a.find(...)] on a property that may be missing. *)
Definition find_in {A} (p : A -> bool) (a : option (list A)) : result (option A) :=
  match a with
  | Some l => Ok (find p l)
  | None => Throw (TypeError "find")
  end.

(** [g => g.id === gate_id] *)
Definition isGate (gate_id' : string) (g : Gate) : bool :=
  strict_eq_str (gate_id g) gate_id'.

(** [p => p.id == player_id] *)
Definition isPlayer (player_id' : string) (p : Player) : bool :=
  loose_eq_str (player_id p) player_id'.

Definition handler (up : Upstream) (query : Query) : list call * Response :=
  if missing (query_id query) || missing (query_player_id query)
     || missing (query_gate_id query) then
    ([], {| status := 400;
            body := ErrorBody (Error "Missing required query parameters. 'id', 'player_id', and 'gate_id' are all required.") |})
  else
    let id := default "" (query_id query) in
    let player_id' := default "" (query_player_id query) in
    let gate_id' := default "" (query_gate_id query) in
    respond
      (runResponse ← fetch_run up id;
       if negb (ok runResponse) then
         throw (Error ("Failed to fetch run data: " +:+ statusText runResponse))
       else
         runData ← lift (json runResponse);
         gate ← lift (find_in (isGate gate_id') (gates runData));
         match gate with
         | None => throw (Error ("Gate with ID '" +:+ gate_id' +:+ "' not found."))
         | Some gate =>
             player ← lift (find_in (isPlayer player_id') (gate_players gate));
             match player with
             | None =>
                 throw (Error ("Player with ID '" +:+ player_id' +:+ "' not found in gate '"
                               +:+ gate_name gate +:+ "'."))
             | Some player => analyze up player
             end
         end).

End Api.

(** ** [src/index.js]: the HTTP server

    The callback of [createServer].  A request is seen through
    [parse(req.url, true)]: its [pathname] and its [query], of which only
    [id] is read.  The answer is the status and the header object of
    [writeHead], preceded by what [setHeader] has set, and what [end]
    sends. *)

Module Server.

Record Request := {
  pathname : string;
  query : Query;
}.

(** What [res.end] sends: the page, or a JSON document. *)
Inductive Content :=
| HTML_CONTENT
| Json (b : Body).

Record Answer := {
  code : Z;
  headers : list (string * string);
  content : Content;
}.

(** [{ error: error.message || 'An internal server error occurred.' }]; only
    an [Error] made with an empty message has a falsy message. *)
Definition message_or_default (error : jserror) : Body :=
  match error with
  | Error message =>
      if String.eqb message ""
      then ErrorBody (Error "An internal server error occurred.")
      else ErrorBody error
  | _ => ErrorBody error
  end.

Definition server (up : Upstream) (req : Request) : list call * Answer :=
  if String.eqb (pathname req) "/" then
    ([], {| code := 200;
            headers := [("Content-Type", "text/html")];
            content := HTML_CONTENT |})
  else if String.eqb (pathname req) "/api/get-run-data" then
    if missing (query_id (query req)) then
      ([], {| code := 400;
              headers := [("Content-Type", "application/json")];
              content := Json (ErrorBody (Error "Missing required query parameter: 'id'")) |})
    else
      match Index.handleApiRequest up (default "" (query_id (query req))) with
      | (t, Ok (runData, skillDictionary)) =>
          (t, {| code := 200;
                 headers := [("Cache-Control", "s-maxage=3600, stale-while-revalidate");
                             ("Content-Type", "application/json")];
                 content := Json (RunBody runData skillDictionary) |})
      | (t, Throw error) =>
          (t, {| code := 500;
                 headers := [("Content-Type", "application/json")];
                 content := Json (message_or_default error) |})
      end
  else
    ([], {| code := 404;
            headers := [("Content-Type", "application/json")];
            content := Json (ErrorBody (Error "Not Found")) |}).

End Server.

(** ** [src/index.js]: the page's [generateCleanJson]

    The script of the page computes the breakdown itself, from the run and
    the dictionary that the full-data request has stored in [FULL_RUN_DATA]
    and [SKILL_DICTIONARY], and from the values of the two select boxes.
    The function is modelled by what it does to the page, in order, and by
    how it ends: it returns, or an exception leaves it. *)

Module Client.

(** What the function does to the page.  [SetOutput] is the assignment to
    the [value] of the text area [output]: the JSON text of the rows,
    ["[]"] when there is none. *)
Inductive Effect :=
| showStatus (message : string) (isError : bool)
| SetOutput (cleanedData : list Row)
| populateTable (data : list Row)
| populateChart (data : list Row)
| DestroyChart        (* [damageChartInstance.destroy()] *)
| ShowOutputSection   (* [outputSection.classList.remove('hidden')] *)
| HideStatus.         (* [statusBox.classList.add('hidden')] *)


(** A run of the script: the effects so far, and a value or an exception. *)
Definition Script (A : Type) : Type := list Effect * result A.

#[local] Instance Script_ret : MRet Script := fun A a => ([], Ok a).
#[local] Instance Script_bind : MBind Script := fun A B f m =>
  match m with
  | (t, Ok a) => let '(t', r) := f a in (t ++ t', r)
  | (t, Throw e) => (t, Throw e)
  end.




(** [g => g.id === gateId] *)
Definition isGate (gateId : string) (g : Gate) : bool :=
  strict_eq_str (gate_id g) gateId.

(** [p => p.id === playerId], for the number (or NaN) [playerId]. *)
Definition isPlayer (playerId : option Z) (p : Player) : bool :=
  match player_id p, playerId with
  | JNum n, Some m => SFeqb (of_Z n) (of_Z m)
  | _, _ => false
  end.

Definition cleanRow (totalDamage : option Z) (SKILL_DICTIONARY : Dictionary)
    (skill : SkillRecord) : result Row :=
  text ← match skill_damage skill with
         | Some s => Ok s
         | None => Throw (TypeError "replace")
         end;
  let damage := parseInt (remove_dots text) in
  let percent :=
    parseFloat (toFixed1 (fmul (fdiv (of_int damage) (of_int totalDamage)) (of_Z 100))) in
  hitCounts ← match skill_hitCounts skill with
              | Some h => Ok h
              | None => Throw (TypeError "1")
              end;
  let crits :=
    match hitCounts !! 1%nat with
    | Some c => if c =? 0 then 0 else c
    | None => 0
    end in
  let totalHits := foldl Z.add 0 hitCounts in
  let critHitsStr := show crits +:+ " / " +:+ show totalHits in
  let critRate :=
    if 0 <? totalHits
    then parseFloat (toFixed1 (fmul (fdiv (of_Z crits) (of_Z totalHits)) (of_Z 100)))
    else of_Z 0 in
  Ok {| row_name :=
          or_else (dict_get SKILL_DICTIONARY (skill_id skill))
                  (JStr ("Unknown Skill (" +:+ show (skill_id skill) +:+ ")"));
        row_damage := damage;
        row_percent := percent;
        row_crit_hits := critHitsStr;
        row_crit_rate := critRate |}.

(** [(a, b) => b.damage - a.damage]: NaN if one of the two is.  The
    difference of the integers has the sign of the difference of the
    numbers, and is 0 for two infinities of one sign, where that difference
    is NaN, which the sort reads as 0. *)
Definition byDamage (a b : Row) : option Z :=
  match row_damage b, row_damage a with
  | Some y, Some x => Some (y - x)
  | _, _ => None
  end.


End Client.

(** ** Auxiliary definitions for the statements *)

(** Every skill identifier that a record of the run refers to. *)
Definition skills_of (player : Player) : list SkillRecord :=
  default [] (player_skills player).

Definition run_skill_ids (runData : Run) : list Z :=
  gate ← default [] (gates runData);
  player ← default [] (gate_players gate);
  skill_id <$> skills_of player.

Definition unknown_skill (X : Z) : jsval :=
  JStr ("Unknown Skill (" +:+ show X +:+ ")").

Definition error_skill (X : Z) : jsval :=
  JStr ("Error Skill (" +:+ show X +:+ ")").

(** The name a lookup settles on, as a function of what the skill table
    answered for this identifier alone. *)
Definition settled (X : Z) (answer : result (HttpResponse SkillBody)) : jsval :=
  match answer with
  | Throw _ => error_skill X
  | Ok res =>
      match json res with
      | Throw _ => error_skill X
      | Ok BodyNull => error_skill X
      | Ok (BodyValue v) => or_else v (unknown_skill X)
      end
  end.

(** A record is complete when it has a damage string and an array of hit
    counts; it is well formed when, moreover, the damage string reads as an
    integer, as the strings of the telemetry service do. *)
Definition complete (skill : SkillRecord) : bool :=
  bool_decide (is_Some (skill_damage skill))
  && bool_decide (is_Some (skill_hitCounts skill)).

Definition well_formed (skill : SkillRecord) : bool :=
  match skill_damage skill, skill_hitCounts skill with
  | Some text, Some _ => bool_decide (is_Some (parseInt (remove_dots text)))
  | _, _ => false
  end.

(** What the resolvers make of one identifier. *)
Definition entry_with (name : Z -> jsval) (X : Z) : Entry :=
  {| entry_id := X; entry_name := name X |}.

Definition settled_entry (up : Upstream) : Z -> Entry :=
  entry_with (fun X => settled X (skill_service up X)).

Definition api_calls (X : Z) : list call :=
  if X <? 0 then [] else [GetSkill X].

Definition api_entry (up : Upstream) : Z -> Entry :=
  entry_with (fun X => if X <? 0 then JStr "Basic Attack"
                       else settled X (skill_service up X)).

(** The player the single-player handler arrives at, when the parameters
    are there, the run is delivered, and gate and player are found. *)
Definition selected_player (up : Upstream) (query : Query) : option Player :=
  if missing (query_id query) || missing (query_player_id query)
     || missing (query_gate_id query) then None
  else
    match run_service up (default "" (query_id query)) with
    | Ok res =>
        if ok res then
          match json res with
          | Ok runData =>
              gs ← gates runData;
              gate ← find (Api.isGate (default "" (query_gate_id query))) gs;
              ps ← gate_players gate;
              find (Api.isPlayer (default "" (query_player_id query))) ps
          | Throw _ => None
          end
        else None
    | Throw _ => None
    end.

(** The key the rows are sorted by, for rows whose damage is a number. *)
Definition damage_key (row : Row) : Z := default 0 (row_damage row).





(** NaN, and the numbers that are neither zero, nor infinite, nor NaN. *)
Definition is_nan (x : number) : bool :=
  match x with S754_nan => true | _ => false end.

Definition is_finite (x : number) : bool :=
  match x with S754_finite _ _ _ => true | _ => false end.

(** The requests with the given parameters. *)
Definition single_query (id pid gid : string) : Query :=
  {| query_id := Some id; query_player_id := Some pid; query_gate_id := Some gid |}.

Definition full_query (id : string) : Query :=
  {| query_id := Some id; query_player_id := None; query_gate_id := None |}.

(** ** Examples used below *)

Definition fireball : SkillRecord :=
  {| skill_id := 5; skill_damage := Some "1.000"; skill_hitCounts := Some [8; 2] |}.

Definition basic_attack : SkillRecord :=
  {| skill_id := -1; skill_damage := Some "250"; skill_hitCounts := Some [3; 0] |}.

Definition example_player : Player :=
  {| player_id := JNum 62257;
     player_damageDealt := Some "1.250";
     player_skills := Some [basic_attack; fireball] |}.

Definition example_gate : Gate :=
  {| gate_id := JStr "776482144628289536";
     gate_name := "Total";
     gate_players := Some [example_player] |}.

Definition example_run : Run := {| gates := Some [example_gate] |}.

(** The skill table knows 5, cannot be reached for 6, has no name for 7 and
    answers everything else with a page that is not JSON. *)
Definition example_upstream : Upstream :=
  {| run_service := fun _ =>
       Ok {| ok := true; statusText := "OK"; json := Ok example_run |};
     skill_service := fun X =>
       if X =? 5 then
         Ok {| ok := true; statusText := "OK";
               json := Ok (BodyValue (JStr "Fireball")) |}
       else if X =? 6 then Throw NetworkError
       else if X =? 7 then
         Ok {| ok := true; statusText := "OK"; json := Ok (BodyValue JUndefined) |}
       else
         Ok {| ok := false; statusText := "Not Found"; json := Throw SyntaxError |} |}.

Definition example_query : Query :=
  {| query_id := Some "776482144628289536";
     query_player_id := Some "62257";
     query_gate_id := Some "776482144628289536" |}.



(** A run with a record whose identifier is below zero and is not -1. *)
Definition other_attack : SkillRecord :=
  {| skill_id := -2; skill_damage := Some "10"; skill_hitCounts := Some [1; 0] |}.

Definition other_run : Run :=
  {| gates := Some
       [ {| gate_id := JStr "g"; gate_name := "Total";
            gate_players := Some
              [ {| player_id := JNum 1; player_damageDealt := Some "10";
                   player_skills := Some [other_attack] |} ] |} ] |}.

(** A player whose total is zero and who has no records at all. *)
Definition idle_player : Player :=
  {| player_id := JNum 7; player_damageDealt := Some "0.000"; player_skills := None |}.

Definition idle_upstream : Upstream :=
  {| run_service := fun _ =>
       Ok {| ok := true; statusText := "OK";
             json := Ok {| gates := Some
                             [ {| gate_id := JStr "g"; gate_name := "Total";
                                  gate_players := Some [idle_player] |} ] |} |};
     skill_service := skill_service example_upstream |}.

Definition idle_query : Query :=
  {| query_id := Some "1"; query_player_id := Some "7"; query_gate_id := Some "g" |}.

(** A telemetry service that answers 503. *)
Definition down_upstream : Upstream :=
  {| run_service := fun _ =>
       Ok {| ok := false; statusText := "Service Unavailable";
             json := Throw SyntaxError |};
     skill_service := skill_service example_upstream |}.

(** A skill table that answers 404 for skill 9, with a JSON body that has
    no name, and 200 for every other skill, with the body [null]. *)
Definition status_upstream : Upstream :=
  {| run_service := run_service example_upstream;
     skill_service := fun X =>
       if X =? 9 then
         Ok {| ok := false; statusText := "Not Found";
               json := Ok (BodyValue JUndefined) |}
       else
         Ok {| ok := true; statusText := "OK"; json := Ok BodyNull |} |}.

(** A player with a record whose damage string is not a number. *)
Definition unreadable : SkillRecord :=
  {| skill_id := 5; skill_damage := Some "n/a"; skill_hitCounts := Some [8; 2] |}.

Definition unreadable_player : Player :=
  {| player_id := JNum 62257;
     player_damageDealt := Some "1.250";
     player_skills := Some [unreadable; fireball] |}.

(** ** Basic facts *)

(** Closes a goal [c ∈ t -> ...] for a trace [t] of at most one call. *)
Ltac short_trace :=
  let H := fresh "H" in
  intros H;
  first [ apply elem_of_nil in H; contradiction
        | apply list_elem_of_singleton in H; eauto ].

Lemma show_inj (x y : Z) : show x = show y -> x = y.
Proof. unfold show. apply (inj pretty). Qed.

Lemma visited_default {A} (a : option (list A)) : visited a = default [] a.
Proof.
  destruct a as [[|x l]|]; reflexivity.
Qed.

Section SetFacts.

Lemma elem_of_Set_add (s : list Z) (x y : Z) :
  y ∈ Set_add s x <-> y ∈ s \/ y = x.
Proof.
  unfold Set_add. destruct (decide (x ∈ s)) as [Hin|Hnin].
  - split; [auto|]. intros [H| ->]; assumption.
  - rewrite elem_of_app, list_elem_of_singleton. reflexivity.
Qed.

Lemma NoDup_Set_add (s : list Z) (x : Z) : NoDup s -> NoDup (Set_add s x).
Proof.
  intros Hs. unfold Set_add. destruct (decide (x ∈ s)) as [Hin|Hnin]; [assumption|].
  apply NoDup_app. split; [assumption|]. split.
  - intros y Hy Hyx. apply list_elem_of_singleton in Hyx. subst y. contradiction.
  - apply NoDup_singleton.
Qed.

Lemma elem_of_foldl_Set_add (l s : list Z) (y : Z) :
  y ∈ foldl Set_add s l <-> y ∈ s \/ y ∈ l.
Proof.
  revert s. induction l as [|x l IH]; intros s; simpl.
  - rewrite elem_of_nil. tauto.
  - rewrite IH, elem_of_Set_add, elem_of_cons. tauto.
Qed.

Lemma NoDup_foldl_Set_add (l s : list Z) : NoDup s -> NoDup (foldl Set_add s l).
Proof.
  revert s. induction l as [|x l IH]; intros s Hs; simpl; [assumption|].
  apply IH, NoDup_Set_add, Hs.
Qed.

Lemma elem_of_Set_of (l : list Z) (y : Z) : y ∈ Set_of l <-> y ∈ l.
Proof.
  unfold Set_of. rewrite elem_of_foldl_Set_add, elem_of_nil. tauto.
Qed.

Lemma NoDup_Set_of (l : list Z) : NoDup (Set_of l).
Proof. apply NoDup_foldl_Set_add, NoDup_nil_2. Qed.

End SetFacts.

(** The three nested loops of the full-data collector add, in order, the
    positive identifiers of all records. *)
Lemma foldl_positive_ids (skills : list SkillRecord) (s : list Z) :
  foldl (fun acc skill =>
           if 0 <? skill_id skill then Set_add acc (skill_id skill) else acc)
        s skills
  = foldl Set_add s (filter (fun x => 0 < x) (skill_id <$> skills)).
Proof.
  revert s. induction skills as [|k skills IH]; intros s; simpl; [reflexivity|].
  rewrite IH. rewrite filter_cons.
  destruct (Z.ltb_spec 0 (skill_id k)); destruct (decide (0 < skill_id k)); try lia;
    reflexivity.
Qed.

Lemma Index_uniqueSkillIds_spec (runData : Run) :
  Index.uniqueSkillIds runData
  = Set_of (filter (fun x => 0 < x) (run_skill_ids runData)).
Proof.
  unfold Index.uniqueSkillIds, run_skill_ids, Set_of, skills_of.
  rewrite visited_default.
  generalize (@nil Z) as s.
  induction (default [] (gates runData)) as [|g gs IHg]; intros s; simpl; [reflexivity|].
  rewrite IHg. rewrite filter_app, foldl_app. f_equal.
  rewrite visited_default. clear IHg.
  revert s. induction (default [] (gate_players g)) as [|p ps IHp]; intros s; simpl;
    [reflexivity|].
  rewrite IHp. rewrite filter_app, foldl_app. f_equal.
  rewrite visited_default. apply foldl_positive_ids.
Qed.

Lemma RunData_uniqueSkillIds_Index (runData : Run) :
  RunData.uniqueSkillIds runData = Index.uniqueSkillIds runData.
Proof. reflexivity. Qed.

(** ** The name resolver *)

Lemma Index_skillNamePromise_settled (up : Upstream) (X : Z) :
  Index.skillNamePromise up X = ([GetSkill X], Ok (settled_entry up X)).
Proof.
  unfold Index.skillNamePromise, settled_entry, entry_with, settled, fetch_skill.
  destruct (skill_service up X) as [res|e]; simpl; [|reflexivity].
  destruct (json res) as [[|v]|e]; reflexivity.
Qed.

Lemma Promise_all_settled {A} (f : Z -> M A) (t : Z -> list call) (g : Z -> A)
    (ids : list Z) :
  (forall X, f X = (t X, Ok (g X))) ->
  Promise_all (f <$> ids) = (ids ≫= t, Ok (g <$> ids)).
Proof.
  intros Hf. induction ids as [|X ids IH]; [reflexivity|].
  rewrite fmap_cons. cbn [Promise_all]. rewrite Hf, IH. reflexivity.
Qed.

Lemma dict_of_entries_snoc (es : list Entry) (e : Entry) :
  dict_of_entries (es ++ [e])
  = <[show (entry_id e) := entry_name e]> (dict_of_entries es).
Proof. unfold dict_of_entries. rewrite foldl_app. reflexivity. Qed.

Section DictOfEntries.
Variable name : Z -> jsval.
Local Abbreviation entry := (entry_with name).

Lemma dict_of_entries_elem (ids : list Z) (X : Z) :
  X ∈ ids -> dict_of_entries (entry <$> ids) !! show X = Some (name X).
Proof.
  induction ids as [|Y ids IH] using rev_ind; intros HX.
  - apply elem_of_nil in HX. contradiction.
  - rewrite fmap_app. cbn [fmap list_fmap]. rewrite dict_of_entries_snoc. simpl.
    destruct (decide (Y = X)) as [->|Hne].
    + apply lookup_insert_eq.
    + rewrite lookup_insert_ne by (intros H; apply show_inj in H; contradiction).
      apply IH. apply elem_of_app in HX as [HX|HX]; [assumption|].
      apply list_elem_of_singleton in HX. congruence.
Qed.

Lemma dict_of_entries_key (ids : list Z) (k : string) (v : jsval) :
  dict_of_entries (entry <$> ids) !! k = Some v ->
  exists X, X ∈ ids /\ k = show X /\ v = name X.
Proof.
  induction ids as [|Y ids IH] using rev_ind.
  - unfold dict_of_entries. simpl. rewrite lookup_empty. discriminate.
  - rewrite fmap_app. cbn [fmap list_fmap]. rewrite dict_of_entries_snoc. simpl.
    destruct (decide (show Y = k)) as [<-|Hne].
    + rewrite lookup_insert_eq. intros [= <-]. exists Y.
      split; [|split]; try reflexivity. apply elem_of_app. right. left.
    + rewrite lookup_insert_ne by assumption. intros H.
      destruct (IH H) as (X & HX & Hk & Hv). exists X.
      split; [|split]; try assumption. apply elem_of_app. left. assumption.
Qed.
End DictOfEntries.

Lemma Index_skillDictionary_eq (up : Upstream) (ids : list Z) :
  Index.skillDictionary up ids
  = (GetSkill <$> ids,
     Ok (<["-1" := JStr "Basic Attack"]>
           (dict_of_entries (settled_entry up <$> ids)))).
Proof.
  unfold Index.skillDictionary, Index.skillNamePromises.
  rewrite (Promise_all_settled _ (fun X => [GetSkill X]) (settled_entry up))
    by apply Index_skillNamePromise_settled.
  simpl. rewrite app_nil_r. f_equal.
Qed.

Lemma RunData_skillDictionary_Index (up : Upstream) (ids : list Z) :
  RunData.skillDictionary up ids = Index.skillDictionary up ids.
Proof. reflexivity. Qed.

Lemma show_minus_one : show (-1) = "-1".
Proof. reflexivity. Qed.

Lemma Api_skillNamePromise_settled (up : Upstream) (X : Z) :
  Api.skillNamePromise up X = (api_calls X, Ok (api_entry up X)).
Proof.
  unfold Api.skillNamePromise, api_calls, api_entry, entry_with, settled, fetch_skill.
  destruct (X <? 0); [reflexivity|].
  destruct (skill_service up X) as [res|e]; simpl; [|reflexivity].
  destruct (json res) as [[|v]|e]; reflexivity.
Qed.

Lemma Api_skillDictionary_eq (up : Upstream) (ids : list Z) :
  Api.skillDictionary up ids
  = (ids ≫= api_calls, Ok (dict_of_entries (api_entry up <$> ids))).
Proof.
  unfold Api.skillDictionary, Api.skillNamePromises.
  rewrite (Promise_all_settled _ api_calls (api_entry up))
    by apply Api_skillNamePromise_settled.
  simpl. rewrite app_nil_r. reflexivity.
Qed.

Lemma full_dictionary_lookup (up : Upstream) (ids : list Z) (X : Z) :
  X ∈ ids -> X <> -1 ->
  (<["-1" := JStr "Basic Attack"]> (dict_of_entries (settled_entry up <$> ids)))
    !! show X = Some (settled X (skill_service up X)).
Proof.
  intros HX Hne.
  rewrite lookup_insert_ne.
  - apply (dict_of_entries_elem (fun X => settled X (skill_service up X))), HX.
  - rewrite <- show_minus_one. intros H. apply show_inj in H. congruence.
Qed.

Lemma api_dictionary_lookup (up : Upstream) (ids : list Z) (X : Z) :
  X ∈ ids ->
  dict_of_entries (api_entry up <$> ids) !! show X
  = Some (if X <? 0 then JStr "Basic Attack" else settled X (skill_service up X)).
Proof.
  intros HX.
  apply (dict_of_entries_elem
           (fun X => if X <? 0 then JStr "Basic Attack"
                     else settled X (skill_service up X))), HX.
Qed.

(** C1 (as the code has it). Whatever the skill table answers, the name
    resolver returns a dictionary (it never throws), the same in the
    stand-alone server and in the full-data handler, with a key for every
    identifier it was given.  For an identifier [X] other than -1: if
    [fetch] rejects, if [res.json()] rejects, or if the body is [null], the
    name is ["Error Skill (X)"]; if the body was read and its [_NameID_txt]
    is absent or falsy, the name is ["Unknown Skill (X)"]; a truthy
    [_NameID_txt] is the name.  The status of the reply plays no part: a
    reply that is not [ok] is read like one that is.  The name of [X]
    depends on the answer for [X] alone, not on what the other lookups did.
    The single-player resolver gives every identifier from 0 upwards the
    same name. *)
Theorem C1_resolver_absorbs_failures (up : Upstream) (ids : list Z) :
  exists dict,
    snd (Index.skillDictionary up ids) = Ok dict
    /\ snd (RunData.skillDictionary up ids) = Ok dict
    /\ (forall X, X ∈ ids -> X <> -1 ->
          is_Some (dict !! show X)
          /\ (forall e, skill_service up X = Throw e ->
                dict !! show X = Some (JStr ("Error Skill (" +:+ show X +:+ ")")))
          /\ (forall res e, skill_service up X = Ok res -> json res = Throw e ->
                dict !! show X = Some (JStr ("Error Skill (" +:+ show X +:+ ")")))
          /\ (forall res, skill_service up X = Ok res -> json res = Ok BodyNull ->
                dict !! show X = Some (JStr ("Error Skill (" +:+ show X +:+ ")")))
          /\ (forall res v, skill_service up X = Ok res ->
                json res = Ok (BodyValue v) -> truthy v = false ->
                dict !! show X = Some (JStr ("Unknown Skill (" +:+ show X +:+ ")")))
          /\ (forall res v, skill_service up X = Ok res ->
                json res = Ok (BodyValue v) -> truthy v = true ->
                dict !! show X = Some v)
          /\ (forall res b t, skill_service up X = Ok res ->
                dict !! show X
                = Some (settled X (Ok {| ok := b; statusText := t; json := json res |})))
          /\ (forall up' dict', skill_service up' X = skill_service up X ->
                snd (Index.skillDictionary up' ids) = Ok dict' ->
                dict' !! show X = dict !! show X))
    /\ exists dict1,
         snd (Api.skillDictionary up ids) = Ok dict1
         /\ forall X, X ∈ ids -> 0 <= X -> dict1 !! show X = dict !! show X.
Proof.
  eexists. rewrite (RunData_skillDictionary_Index up ids), Index_skillDictionary_eq. simpl.
  split; [reflexivity|]. split; [reflexivity|]. split.
  - intros X HX Hne. rewrite (full_dictionary_lookup up ids X HX Hne).
    split; [eauto|]. unfold settled.
    split; [intros e ->; reflexivity|].
    split; [intros res e -> ->; reflexivity|].
    split; [intros res -> ->; reflexivity|].
    split; [intros res v -> -> Hv; unfold or_else; rewrite Hv; reflexivity|].
    split; [intros res v -> -> Hv; unfold or_else; rewrite Hv; reflexivity|].
    split; [intros res b t ->; reflexivity|].
    intros up' dict' Heq. rewrite Index_skillDictionary_eq. simpl. intros [= <-].
    rewrite (full_dictionary_lookup up' ids X HX Hne), Heq. reflexivity.
  - eexists. rewrite Api_skillDictionary_eq. simpl. split; [reflexivity|].
    intros X HX Hpos. rewrite (api_dictionary_lookup up ids X HX).
    rewrite (full_dictionary_lookup up ids X HX) by lia.
    destruct (Z.ltb_spec X 0); [lia|reflexivity].
Qed.

(** ** The calls a request issues *)

Lemma elem_of_Index_uniqueSkillIds (runData : Run) (X : Z) :
  X ∈ Index.uniqueSkillIds runData <-> 0 < X /\ X ∈ run_skill_ids runData.
Proof.
  rewrite Index_uniqueSkillIds_spec, elem_of_Set_of, list_elem_of_filter. reflexivity.
Qed.

Lemma positive_uniqueSkillIds (runData : Run) (X : Z) :
  X ∈ Index.uniqueSkillIds runData -> 0 < X.
Proof. rewrite elem_of_Index_uniqueSkillIds. tauto. Qed.

Lemma Index_handleApiRequest_calls (up : Upstream) (id : string) (c : call) :
  c ∈ fst (Index.handleApiRequest up id) ->
  c = GetRun id \/ exists X, c = GetSkill X /\ 0 < X.
Proof.
  unfold Index.handleApiRequest, fetch_run.
  destruct (run_service up id) as [res|e]; simpl.
  2: short_trace.
  destruct (ok res); simpl.
  2: short_trace.
  destruct (json res) as [runData|e]; simpl.
  2: short_trace.
  rewrite Index_skillDictionary_eq. simpl.
  rewrite app_nil_r, elem_of_cons, list_elem_of_fmap.
  intros [H|(X & -> & HX)]; [auto|]. right. exists X. split; [reflexivity|].
  eapply positive_uniqueSkillIds, HX.
Qed.

Lemma RunData_handler_calls (up : Upstream) (query : Query) (c : call) :
  c ∈ fst (RunData.handler up query) ->
  (exists id, c = GetRun id) \/ exists X, c = GetSkill X /\ 0 < X.
Proof.
  unfold RunData.handler, fetch_run.
  destruct (missing (query_id query)); simpl.
  1: short_trace.
  destruct (run_service up _) as [res|e]; simpl.
  2: short_trace.
  destruct (ok res); simpl.
  2: short_trace.
  destruct (json res) as [runData|e]; simpl.
  2: short_trace.
  change (RunData.skillDictionary up (RunData.uniqueSkillIds runData))
    with (Index.skillDictionary up (Index.uniqueSkillIds runData)).
  rewrite Index_skillDictionary_eq. simpl.
  rewrite app_nil_r, elem_of_cons, list_elem_of_fmap.
  intros [H|(X & -> & HX)]; [eauto|]. right. exists X. split; [reflexivity|].
  eapply positive_uniqueSkillIds, HX.
Qed.

Lemma elem_of_api_calls (ids : list Z) (c : call) :
  c ∈ ids ≫= api_calls <-> exists X, c = GetSkill X /\ 0 <= X /\ X ∈ ids.
Proof.
  rewrite list_elem_of_bind. unfold api_calls. split.
  - intros (X & Hc & HX). destruct (Z.ltb_spec X 0).
    + apply elem_of_nil in Hc. contradiction.
    + apply list_elem_of_singleton in Hc. eauto.
  - intros (X & -> & Hpos & HX). exists X. split; [|assumption].
    destruct (Z.ltb_spec X 0); [lia|]. apply list_elem_of_singleton. reflexivity.
Qed.

Lemma Api_analyze_calls (up : Upstream) (player : Player) (c : call) :
  c ∈ fst (Api.analyze up player) ->
  exists X, c = GetSkill X /\ 0 <= X /\ X ∈ skill_id <$> skills_of player.
Proof.
  unfold Api.analyze, Api.totalDamage, skills_of.
  destruct (player_damageDealt player) as [s|]; simpl.
  2: short_trace.
  case_bool_decide; simpl.
  1: short_trace.
  destruct (player_skills player) as [skills|]; simpl.
  2: short_trace.
  rewrite Api_skillDictionary_eq. simpl.
  destruct (Api.cleanedData _ _ skills) as [rows|e]; simpl;
    rewrite app_nil_r, elem_of_api_calls;
    intros (X & -> & Hpos & HX); exists X; (split; [reflexivity|]); (split; [assumption|]);
    apply elem_of_Set_of, HX.
Qed.

Lemma Api_handler_calls (up : Upstream) (query : Query) (c : call) :
  c ∈ fst (Api.handler up query) ->
  (exists id, c = GetRun id) \/ exists X, c = GetSkill X /\ 0 <= X.
Proof.
  unfold Api.handler, fetch_run.
  destruct (_ || _); simpl.
  1: short_trace.
  destruct (run_service up _) as [res|e]; simpl.
  2: short_trace.
  destruct (ok res); simpl.
  2: short_trace.
  destruct (json res) as [runData|e]; simpl.
  2: short_trace.
  destruct (gates runData) as [gs|]; simpl.
  2: short_trace.
  destruct (find _ gs) as [gate|]; simpl.
  2: short_trace.
  destruct (gate_players gate) as [ps|]; simpl.
  2: short_trace.
  destruct (find _ ps) as [player|]; simpl.
  2: short_trace.
  pose proof (Api_analyze_calls up player c) as Hc.
  destruct (Api.analyze up player) as [t [r|e]]; simpl in *;
    rewrite elem_of_cons; (intros [H|H]; [eauto|]);
    destruct (Hc H) as (X & -> & Hpos & _); eauto.
Qed.

Lemma C1_resolver_absorbs_failures_witness :
  exists dict,
    snd (Index.skillDictionary example_upstream [5; 6; 7; 8]) = Ok dict
    /\ dict !! "6" = Some (JStr "Error Skill (6)")
    /\ dict !! "7" = Some (JStr "Unknown Skill (7)")
    /\ dict !! "8" = Some (JStr "Error Skill (8)")
    /\ dict !! "5" = Some (JStr "Fireball").
Proof.
  destruct (C1_resolver_absorbs_failures example_upstream [5; 6; 7; 8])
    as (dict & Hdict & _ & H & _).
  exists dict. split; [exact Hdict|].
  split; [|split; [|split]].
  - destruct (H 6) as (_ & H6 & _); [repeat constructor|lia|].
    exact (H6 NetworkError eq_refl).
  - destruct (H 7) as (_ & _ & _ & _ & H7 & _); [repeat constructor|lia|].
    exact (H7 _ _ eq_refl eq_refl eq_refl).
  - destruct (H 8) as (_ & _ & H8 & _); [repeat constructor|lia|].
    exact (H8 _ _ eq_refl eq_refl).
  - destruct (H 5) as (_ & _ & _ & _ & _ & H5 & _); [repeat constructor|lia|].
    exact (H5 _ _ eq_refl eq_refl eq_refl).
Defined.

(** Stated by the outcome of the call, the rule for the two placeholders
    fails on both sides.  The lookup of skill 9 is answered with 404, a
    failed call, and a JSON body without the field: the
    name is ["Unknown Skill (9)"], not ["Error Skill (9)"].  The lookup of
    skill 11 succeeds with the body [null], in which the field is absent:
    the name is ["Error Skill (11)"], not ["Unknown Skill (11)"]. *)
Lemma C1_counterexample :
  exists dict,
    snd (Index.skillDictionary status_upstream [9; 11]) = Ok dict
    /\ snd (RunData.skillDictionary status_upstream [9; 11]) = Ok dict
    /\ (exists res,
          skill_service status_upstream 9 = Ok res /\ ok res = false
          /\ json res = Ok (BodyValue JUndefined)
          /\ dict !! "9" = Some (JStr "Unknown Skill (9)")
          /\ dict !! "9" <> Some (JStr "Error Skill (9)"))
    /\ (exists res,
          skill_service status_upstream 11 = Ok res /\ ok res = true
          /\ json res = Ok BodyNull
          /\ dict !! "11" = Some (JStr "Error Skill (11)")
          /\ dict !! "11" <> Some (JStr "Unknown Skill (11)")).
Proof.
  eexists. split; [reflexivity|]. split; [reflexivity|]. split.
  - eexists. split; [reflexivity|]. split; [reflexivity|]. split; [reflexivity|].
    split; [reflexivity|]. vm_compute. discriminate.
  - eexists. split; [reflexivity|]. split; [reflexivity|]. split; [reflexivity|].
    split; [reflexivity|]. vm_compute. discriminate.
Qed.

(** ** The identifier collector *)

(** C2 (as the code has it). The collector of the stand-alone server and of
    the full-data handler is defined for every run, also when [gates],
    [players] or [skills] are missing or empty; its output has no duplicate
    and consists of the identifiers above zero of the run's records.  The
    collector of the single-player handler has no duplicate either, but it
    keeps every identifier of the player's records, whatever its sign. *)
Theorem C2_collector_output :
  (forall runData,
      NoDup (Index.uniqueSkillIds runData)
      /\ RunData.uniqueSkillIds runData = Index.uniqueSkillIds runData
      /\ forall X, X ∈ Index.uniqueSkillIds runData
                   <-> 0 < X /\ X ∈ run_skill_ids runData)
  /\ (forall skills,
        NoDup (Api.uniqueSkillIds skills)
        /\ forall X, X ∈ Api.uniqueSkillIds skills <-> X ∈ skill_id <$> skills).
Proof.
  split.
  - intros runData. split; [|split].
    + rewrite Index_uniqueSkillIds_spec. apply NoDup_Set_of.
    + apply RunData_uniqueSkillIds_Index.
    + apply elem_of_Index_uniqueSkillIds.
  - intros skills. unfold Api.uniqueSkillIds.
    split; [apply NoDup_Set_of|]. intros X. apply elem_of_Set_of.
Qed.

Lemma C2_collector_output_witness :
  Index.uniqueSkillIds example_run = [5]
  /\ (5 ∈ Index.uniqueSkillIds example_run <-> 0 < 5 /\ 5 ∈ run_skill_ids example_run)
  /\ (-1 ∈ Api.uniqueSkillIds [basic_attack; fireball]
      <-> -1 ∈ skill_id <$> [basic_attack; fireball]).
Proof.
  split; [reflexivity|]. split.
  - apply (proj1 C2_collector_output example_run).
  - apply (proj2 C2_collector_output [basic_attack; fireball]).
Defined.

(** The single-player collector returns the identifier -1 of a basic
    attack, and for a player without [skills] the handler throws a
    [TypeError], which it answers with 500. *)
Lemma C2_counterexample :
  (exists X, X ∈ Api.uniqueSkillIds [basic_attack; fireball] /\ X <= 0)
  /\ snd (Api.analyze example_upstream
            {| player_id := JNum 62257; player_damageDealt := Some "1.250";
               player_skills := None |})
     = Throw (TypeError "map").
Proof.
  split.
  - exists (-1). split; [|lia]. apply elem_of_Set_of. repeat constructor.
  - reflexivity.
Qed.

(** ** The entry for the basic attack *)

(** C3 (as the code has it). In the stand-alone server and in the full-data
    handler the dictionary always maps ["-1"] to ["Basic Attack"], whatever
    identifiers were resolved.  In the single-player handler it does so
    exactly when -1 is among the identifiers of the player's records.  No
    handler ever issues a lookup for -1. *)
Theorem C3_basic_attack_entry (up : Upstream) :
  (forall ids, exists dict,
      snd (Index.skillDictionary up ids) = Ok dict
      /\ snd (RunData.skillDictionary up ids) = Ok dict
      /\ dict !! "-1" = Some (JStr "Basic Attack"))
  /\ (forall ids, exists dict,
        snd (Api.skillDictionary up ids) = Ok dict
        /\ dict !! "-1" = (if decide (-1 ∈ ids) then Some (JStr "Basic Attack") else None)
        /\ GetSkill (-1) ∉ fst (Api.skillDictionary up ids))
  /\ (forall id, GetSkill (-1) ∉ fst (Index.handleApiRequest up id))
  /\ (forall query, GetSkill (-1) ∉ fst (RunData.handler up query))
  /\ (forall query, GetSkill (-1) ∉ fst (Api.handler up query)).
Proof.
  split; [|split; [|split; [|split]]].
  - intros ids. eexists.
    change (RunData.skillDictionary up ids) with (Index.skillDictionary up ids).
    rewrite Index_skillDictionary_eq. simpl.
    split; [reflexivity|]. split; [reflexivity|]. apply lookup_insert_eq.
  - intros ids. eexists. rewrite Api_skillDictionary_eq. simpl.
    split; [reflexivity|]. split.
    + rewrite <- show_minus_one. destruct (decide (-1 ∈ ids)) as [Hin|Hnin].
      * rewrite (api_dictionary_lookup up ids (-1) Hin). reflexivity.
      * destruct (dict_of_entries (api_entry up <$> ids) !! show (-1)) as [v|] eqn:Hv;
          [|reflexivity].
        apply dict_of_entries_key in Hv as (X & HX & Hk & _).
        apply show_inj in Hk. subst X. contradiction.
    + intros H. apply elem_of_api_calls in H as (X & [= <-] & Hpos & _). lia.
  - intros id H. apply Index_handleApiRequest_calls in H as [H|(X & [= <-] & Hpos)];
      [discriminate|lia].
  - intros query H. apply RunData_handler_calls in H as [[id H]|(X & [= <-] & Hpos)];
      [discriminate|lia].
  - intros query H. apply Api_handler_calls in H as [[id H]|(X & [= <-] & Hpos)];
      [discriminate|lia].
Qed.

Lemma C3_basic_attack_entry_witness :
  exists dict,
    snd (RunData.skillDictionary example_upstream [5; 6]) = Ok dict
    /\ dict !! "-1" = Some (JStr "Basic Attack").
Proof.
  destruct (proj1 (C3_basic_attack_entry example_upstream) [5; 6])
    as (dict & _ & Hdict & Hkey).
  exists dict. split; [exact Hdict|exact Hkey].
Defined.

(** The player has only skill 5: the dictionary of the single-player
    handler has no key ["-1"]. *)
Lemma C3_counterexample :
  exists dict,
    snd (Api.skillDictionary example_upstream (Api.uniqueSkillIds [fireball])) = Ok dict
    /\ dict !! "-1" = None.
Proof.
  eexists. split; [reflexivity|]. reflexivity.
Qed.

(** ** The keys of the dictionary *)

Lemma full_dictionary_keys (up : Upstream) (runData : Run) (k : string) :
  is_Some ((<["-1" := JStr "Basic Attack"]>
              (dict_of_entries (settled_entry up <$> Index.uniqueSkillIds runData))) !! k)
  <-> k = "-1" \/ exists X, X ∈ run_skill_ids runData /\ 0 < X /\ k = show X.
Proof.
  split.
  - intros [v Hv]. destruct (decide (k = "-1")) as [->|Hne]; [auto|].
    rewrite lookup_insert_ne in Hv by congruence.
    apply dict_of_entries_key in Hv as (X & HX & Hk & _).
    apply elem_of_Index_uniqueSkillIds in HX as [Hpos HX].
    right. eauto.
  - intros [->|(X & HX & Hpos & ->)].
    + rewrite lookup_insert_eq. eauto.
    + rewrite full_dictionary_lookup; [eauto| |lia].
      apply elem_of_Index_uniqueSkillIds. auto.
Qed.

(** C8 (as the code has it). When the stand-alone server or the full-data
    handler answers with a run and a dictionary, the keys of the dictionary
    are ["-1"] and the identifiers above zero of the run's records, and
    nothing else.  The dictionary of the single-player handler has exactly
    the identifiers of the selected player's records as keys. *)
Theorem C8_dictionary_keys (up : Upstream) :
  (forall id runData dict,
      snd (Index.handleApiRequest up id) = Ok (runData, dict) ->
      forall k, is_Some (dict !! k)
                <-> k = "-1" \/ exists X, X ∈ run_skill_ids runData /\ 0 < X /\ k = show X)
  /\ (forall query runData dict,
        snd (RunData.handler up query)
        = {| status := 200; body := RunBody runData dict |} ->
        forall k, is_Some (dict !! k)
                  <-> k = "-1" \/ exists X, X ∈ run_skill_ids runData /\ 0 < X /\ k = show X)
  /\ (forall skills, exists dict,
        snd (Api.skillDictionary up (Api.uniqueSkillIds skills)) = Ok dict
        /\ forall k, is_Some (dict !! k)
                     <-> exists X, X ∈ skill_id <$> skills /\ k = show X).
Proof.
  split; [|split].
  - intros id runData dict. unfold Index.handleApiRequest, fetch_run.
    destruct (run_service up id) as [res|e]; simpl; [|discriminate].
    destruct (ok res); simpl; [|discriminate].
    destruct (json res) as [run|e]; simpl; [|discriminate].
    rewrite Index_skillDictionary_eq. simpl. intros [= <- <-].
    apply full_dictionary_keys.
  - intros query runData dict. unfold RunData.handler, fetch_run.
    destruct (missing (query_id query)); simpl; [discriminate|].
    destruct (run_service up _) as [res|e]; simpl; [|discriminate].
    destruct (ok res); simpl; [|discriminate].
    destruct (json res) as [run|e]; simpl; [|discriminate].
    change (RunData.skillDictionary up (RunData.uniqueSkillIds run))
      with (Index.skillDictionary up (Index.uniqueSkillIds run)).
    rewrite Index_skillDictionary_eq. simpl. intros [= <- <-].
    apply full_dictionary_keys.
  - intros skills. eexists. rewrite Api_skillDictionary_eq. simpl.
    split; [reflexivity|]. intros k. split.
    + intros [v Hv]. apply dict_of_entries_key in Hv as (X & HX & Hk & _).
      exists X. split; [|assumption]. apply elem_of_Set_of, HX.
    + intros (X & HX & ->). rewrite api_dictionary_lookup; [eauto|].
      apply elem_of_Set_of, HX.
Qed.

Lemma C8_dictionary_keys_witness :
  exists runData dict,
    snd (RunData.handler example_upstream example_query)
    = {| status := 200; body := RunBody runData dict |}
    /\ is_Some (dict !! "5") /\ is_Some (dict !! "-1").
Proof.
  exists example_run. eexists. split; [reflexivity|].
  split.
  - apply (proj1 (proj2 (C8_dictionary_keys example_upstream))
             example_query example_run _ eq_refl "5").
    right. exists 5. split; [repeat constructor|]. split; [lia|reflexivity].
  - apply (proj1 (proj2 (C8_dictionary_keys example_upstream))
             example_query example_run _ eq_refl "-1").
    left. reflexivity.
Defined.

(** A record with identifier -2 in the run: the full-data dictionary has no
    key for it.  A player with skill 5 only: the single-player dictionary
    has no key ["-1"]. *)
Lemma C8_counterexample :
  -2 ∈ run_skill_ids other_run
  /\ (exists dict,
        snd (Index.handleApiRequest
               {| run_service := fun _ =>
                    Ok {| ok := true; statusText := "OK"; json := Ok other_run |};
                  skill_service := skill_service example_upstream |} "1")
        = Ok (other_run, dict)
        /\ dict !! show (-2) = None)
  /\ (exists dict,
        snd (Api.skillDictionary example_upstream (Api.uniqueSkillIds [fireball]))
        = Ok dict
        /\ dict !! "-1" = None).
Proof.
  split; [repeat constructor|].
  split; eexists; (split; [reflexivity|]); reflexivity.
Qed.

(** ** Negative identifiers in the single-player handler *)

(** C9. In the single-player handler every identifier below zero among the
    player's records is a key of the dictionary, with the name
    ["Basic Attack"], and neither the resolver nor the handler as a whole
    issues a lookup for an identifier below zero. *)
Theorem C9_negative_ids_are_basic_attacks (up : Upstream) (skills : list SkillRecord)
    (X : Z) :
  X ∈ skill_id <$> skills -> X < 0 ->
  exists dict,
    snd (Api.skillDictionary up (Api.uniqueSkillIds skills)) = Ok dict
    /\ dict !! show X = Some (JStr "Basic Attack")
    /\ (forall Y, Y < 0 ->
          GetSkill Y ∉ fst (Api.skillDictionary up (Api.uniqueSkillIds skills)))
    /\ (forall query Y, Y < 0 -> GetSkill Y ∉ fst (Api.handler up query)).
Proof.
  intros HX Hneg. eexists. rewrite Api_skillDictionary_eq. simpl.
  split; [reflexivity|]. split; [|split].
  - rewrite api_dictionary_lookup by (apply elem_of_Set_of, HX).
    destruct (Z.ltb_spec X 0); [reflexivity|lia].
  - intros Y HY H. apply elem_of_api_calls in H as (Z & [= <-] & Hpos & _). lia.
  - intros query Y HY H.
    apply Api_handler_calls in H as [[id H]|(Z & [= <-] & Hpos)]; [discriminate|lia].
Qed.

Lemma C9_negative_ids_are_basic_attacks_witness :
  exists dict,
    snd (Api.skillDictionary example_upstream
           (Api.uniqueSkillIds [basic_attack; fireball])) = Ok dict
    /\ dict !! "-1" = Some (JStr "Basic Attack").
Proof.
  destruct (C9_negative_ids_are_basic_attacks example_upstream
              [basic_attack; fireball] (-1)) as (dict & Hd & Hk & _).
  - repeat constructor.
  - lia.
  - exists dict. split; [exact Hd|exact Hk].
Defined.

(** ** Sorting with a comparator that subtracts keys *)

Section SortFacts.
Context {A : Type} (comparefn : A -> A -> option Z) (key : A -> Z) (dom : A -> Prop).
Hypothesis comparefn_key :
  forall a b, dom a -> dom b -> comparefn a b = Some (key b - key a).

Local Abbreviation ge_key := (fun a b => key b <= key a).

Lemma after_key (a b : A) : dom a -> dom b -> after comparefn a b = (key a <? key b).
Proof.
  intros Ha Hb. unfold after. rewrite comparefn_key by assumption. simpl.
  destruct (Z.ltb_spec 0 (key b - key a)); destruct (Z.ltb_spec (key a) (key b));
    (reflexivity || lia).
Qed.

Lemma insert_sorted_perm (a : A) (l : list A) : insert_sorted comparefn a l ≡ₚ a :: l.
Proof.
  induction l as [|b l IH]; simpl; [reflexivity|].
  destruct (after comparefn a b); [|reflexivity].
  rewrite IH. apply Permutation_swap.
Qed.

Lemma sort_perm (l : list A) : sort comparefn l ≡ₚ l.
Proof.
  induction l as [|a l IH]; simpl; [reflexivity|].
  rewrite insert_sorted_perm, IH. reflexivity.
Qed.

Lemma sort_dom (l : list A) : Forall dom l -> Forall dom (sort comparefn l).
Proof. intros H. rewrite sort_perm. exact H. Qed.

Lemma insert_sorted_HdRel (a b : A) (l : list A) :
  HdRel ge_key b l -> key a <= key b -> HdRel ge_key b (insert_sorted comparefn a l).
Proof.
  intros Hl Hab. destruct l as [|c l]; simpl; [constructor; exact Hab|].
  inversion Hl; subst. destruct (after comparefn a c); constructor; assumption.
Qed.

Lemma insert_sorted_Sorted (a : A) (l : list A) :
  dom a -> Forall dom l -> Sorted ge_key l -> Sorted ge_key (insert_sorted comparefn a l).
Proof.
  intros Ha Hdom Hl. induction Hl as [|b l Hl IH Hb]; simpl.
  - repeat constructor.
  - inversion Hdom; subst. rewrite after_key by assumption.
    destruct (Z.ltb_spec (key a) (key b)).
    + constructor; [apply IH; assumption|]. apply insert_sorted_HdRel; [assumption|lia].
    + constructor; [constructor; assumption|]. constructor. assumption.
Qed.

Lemma sort_Sorted (l : list A) : Forall dom l -> Sorted ge_key (sort comparefn l).
Proof.
  induction 1 as [|a l Ha Hl IH]; simpl; [constructor|].
  apply insert_sorted_Sorted; [assumption|apply sort_dom; assumption|assumption].
Qed.

(** Stability: among the elements of one key the order is kept. *)
Lemma insert_sorted_filter (d : Z) (a : A) (l : list A) :
  dom a -> Forall dom l ->
  filter (fun x => key x = d) (insert_sorted comparefn a l)
  = filter (fun x => key x = d) (a :: l).
Proof.
  intros Ha Hdom. induction Hdom as [|b l Hb Hl IH]; simpl; [reflexivity|].
  rewrite after_key by assumption. destruct (Z.ltb_spec (key a) (key b)); [|reflexivity].
  rewrite !filter_cons, IH, !filter_cons.
  destruct (decide (key b = d)), (decide (key a = d)); try reflexivity. lia.
Qed.

Lemma sort_filter (d : Z) (l : list A) :
  Forall dom l ->
  filter (fun x => key x = d) (sort comparefn l) = filter (fun x => key x = d) l.
Proof.
  induction 1 as [|a l Ha Hl IH]; simpl; [reflexivity|].
  rewrite insert_sorted_filter by (try apply sort_dom; assumption).
  rewrite !filter_cons, IH. reflexivity.
Qed.

Lemma Sorted_adjacent (l : list A) (i : nat) (a b : A) :
  Sorted ge_key l -> l !! i = Some a -> l !! S i = Some b -> key b <= key a.
Proof.
  intros Hl. revert i. induction Hl as [|c l Hl IH Hc]; intros i Ha Hb; [discriminate|].
  destruct i as [|i]; simpl in *.
  - injection Ha as ->. destruct l as [|c' l]; [discriminate|].
    injection Hb as ->. inversion Hc; subst. assumption.
  - eapply IH; eassumption.
Qed.

End SortFacts.

(** ** The aggregator *)

Lemma map_throwing_Ok {A B} (f : A -> result B) (l : list A) (bs : list B) :
  map_throwing f l = Ok bs -> Forall2 (fun a b => f a = Ok b) l bs.
Proof.
  revert bs. induction l as [|a l IH]; intros bs; simpl.
  - intros [= <-]. constructor.
  - destruct (f a) as [b|e] eqn:Hb; simpl; [|discriminate].
    destruct (map_throwing f l) as [bs'|e]; simpl; [|discriminate].
    intros [= <-]. constructor; [assumption|]. apply IH. reflexivity.
Qed.

Lemma map_throwing_Throw {A B} (f : A -> result B) (l : list A) (e : jserror) :
  map_throwing f l = Throw e -> exists a, a ∈ l /\ f a = Throw e.
Proof.
  induction l as [|a l IH]; simpl; [discriminate|].
  destruct (f a) as [b|e'] eqn:Hb; simpl.
  - destruct (map_throwing f l) as [bs'|e']; simpl; [discriminate|].
    intros [= ->]. destruct IH as (a' & Ha' & Hf); [reflexivity|].
    exists a'. split; [right; assumption|assumption].
  - intros [= ->]. exists a. split; [left|assumption].
Qed.

Lemma map_throwing_total {A B} (f : A -> result B) (l : list A) :
  Forall (fun a => exists b, f a = Ok b) l -> exists bs, map_throwing f l = Ok bs.
Proof.
  induction 1 as [|a l [b Hb] Hl [bs IH]]; simpl; [eauto|].
  rewrite Hb, IH. simpl. eauto.
Qed.

Lemma cleanRow_Ok (total : option Z) (dict : Dictionary) (skill : SkillRecord) (row : Row) :
  Api.cleanRow total dict skill = Ok row ->
  exists text, skill_damage skill = Some text
               /\ is_Some (skill_hitCounts skill)
               /\ row_damage row = parseInt (remove_dots text).
Proof.
  unfold Api.cleanRow.
  destruct (skill_damage skill) as [text|]; simpl; [|discriminate].
  destruct (skill_hitCounts skill) as [hitCounts|]; simpl; [|discriminate].
  intros [= <-]. exists text. simpl. eauto.
Qed.

Lemma cleanRow_complete (total : option Z) (dict : Dictionary) (skill : SkillRecord) :
  complete skill = true -> exists row, Api.cleanRow total dict skill = Ok row.
Proof.
  unfold complete, Api.cleanRow. rewrite andb_true_iff, !bool_decide_eq_true.
  intros [[text ->] [hitCounts ->]]. simpl. eauto.
Qed.

Lemma cleanRow_Throw (total : option Z) (dict : Dictionary) (skill : SkillRecord)
    (e : jserror) :
  Api.cleanRow total dict skill = Throw e ->
  (skill_damage skill = None /\ e = TypeError "replace")
  \/ (skill_hitCounts skill = None /\ e = TypeError "1").
Proof.
  unfold Api.cleanRow.
  destruct (skill_damage skill) as [text|]; simpl; [|intros [= <-]; auto].
  destruct (skill_hitCounts skill) as [hitCounts|]; simpl; [discriminate|].
  intros [= <-]. auto.
Qed.

Lemma cleanedData_unfold (total : option Z) (dict : Dictionary)
    (skills : list SkillRecord) :
  Api.cleanedData total dict skills
  = match map_throwing (Api.cleanRow total dict) skills with
    | Ok rows => Ok (sort Api.byDamage rows)
    | Throw e => Throw e
    end.
Proof. reflexivity. Qed.

(** C7 (as the code has it). The aggregator is a function of the total, the
    dictionary and the records.  It returns rows, one per record, exactly
    when every record has a damage string and an array of hit counts; the
    damage string need not read as a number.  When it throws, some record
    lacks one of the two, and the error is the [TypeError] of the failed
    access ([replace] for the damage, index [1] for the hit counts), which
    says nothing about the record. *)
Theorem C7_aggregator_failures (total : option Z) (dict : Dictionary)
    (skills : list SkillRecord) :
  (forallb complete skills = true <->
     exists rows, Api.cleanedData total dict skills = Ok rows)
  /\ (forall rows, Api.cleanedData total dict skills = Ok rows ->
        length rows = length skills)
  /\ (forall e, Api.cleanedData total dict skills = Throw e ->
        exists skill, skill ∈ skills
          /\ ((skill_damage skill = None /\ e = TypeError "replace")
              \/ (skill_hitCounts skill = None /\ e = TypeError "1"))).
Proof.
  rewrite cleanedData_unfold. split; [|split].
  - split.
    + intros Hc. destruct (map_throwing_total (Api.cleanRow total dict) skills) as [rows ->].
      * apply Forall_forall. intros skill Hin. apply cleanRow_complete.
        rewrite forallb_forall in Hc. apply Hc, list_elem_of_In, Hin.
      * eauto.
    + intros [rows Hrows].
      destruct (map_throwing _ skills) as [unsorted|e] eqn:Hm; [|discriminate].
      apply map_throwing_Ok in Hm. clear Hrows.
      induction Hm as [|skill row skills unsorted Hrow _ IH]; simpl; [reflexivity|].
      rewrite IH, andb_true_r. apply cleanRow_Ok in Hrow as (text & Ht & Hh & _).
      unfold complete. rewrite Ht. apply andb_true_iff.
      rewrite !bool_decide_eq_true. eauto.
  - intros rows. destruct (map_throwing _ skills) as [unsorted|e] eqn:Hm; [|discriminate].
    intros [= <-]. rewrite (sort_perm Api.byDamage unsorted).
    apply map_throwing_Ok, Forall2_length in Hm. congruence.
  - intros e. destruct (map_throwing _ skills) as [unsorted|e'] eqn:Hm; [discriminate|].
    intros [= ->]. apply map_throwing_Throw in Hm as (skill & Hin & Hs).
    exists skill. split; [assumption|]. eapply cleanRow_Throw, Hs.
Qed.

Lemma C7_aggregator_failures_witness :
  exists rows,
    Api.cleanedData (Some 1250) ∅ [basic_attack; fireball] = Ok rows.
Proof.
  apply (proj1 (proj1 (C7_aggregator_failures (Some 1250) ∅ [basic_attack; fireball]))).
  reflexivity.
Defined.

(** A record without damage string makes the aggregator throw the same
    error whether its identifier is 5 or 6, and a damage string that is not
    a number does not make it throw: the row has NaN for damage and
    percent. *)
Lemma C7_counterexample :
  Api.cleanedData (Some 1000) ∅
    [ {| skill_id := 5; skill_damage := None; skill_hitCounts := Some [8; 2] |} ]
  = Throw (TypeError "replace")
  /\ Api.cleanedData (Some 1000) ∅
       [ {| skill_id := 6; skill_damage := None; skill_hitCounts := Some [8; 2] |} ]
     = Throw (TypeError "replace")
  /\ Api.cleanedData (Some 1000) ∅
       [ {| skill_id := 5; skill_damage := Some "n/a"; skill_hitCounts := Some [8; 2] |} ]
     = Ok [ {| row_name := JStr "Unknown Skill (5)";
               row_damage := None;
               row_percent := NaN;
               row_crit_hits := "2 / 10";
               row_crit_rate := of_Z 20 |} ].
Proof.
  split; [reflexivity|]. split; [reflexivity|]. vm_compute. reflexivity.
Qed.

Lemma byDamage_key (a b : Row) :
  is_Some (row_damage a) -> is_Some (row_damage b) ->
  Api.byDamage a b = Some (damage_key b - damage_key a).
Proof.
  intros [x Hx] [y Hy]. unfold Api.byDamage, damage_key. rewrite Hx, Hy. reflexivity.
Qed.

Lemma well_formed_rows (total : option Z) (dict : Dictionary)
    (skills : list SkillRecord) :
  forallb well_formed skills = true ->
  exists unsorted,
    map_throwing (Api.cleanRow total dict) skills = Ok unsorted
    /\ Forall (fun row => is_Some (row_damage row)) unsorted.
Proof.
  intros Hwf.
  destruct (map_throwing_total (Api.cleanRow total dict) skills) as [unsorted Hm].
  - apply Forall_forall. intros skill Hin. apply cleanRow_complete.
    rewrite forallb_forall in Hwf. apply list_elem_of_In, Hwf in Hin.
    unfold well_formed in Hin. unfold complete.
    destruct (skill_damage skill), (skill_hitCounts skill); try discriminate.
    apply andb_true_iff. rewrite !bool_decide_eq_true. eauto.
  - exists unsorted. split; [assumption|].
    apply map_throwing_Ok in Hm.
    induction Hm as [|skill row skills unsorted Hrow _ IH]; [constructor|].
    simpl in Hwf. apply andb_true_iff in Hwf as [Hs Hwf].
    constructor; [|apply IH, Hwf].
    apply cleanRow_Ok in Hrow as (text & Ht & _ & ->).
    unfold well_formed in Hs. rewrite Ht in Hs.
    destruct (skill_hitCounts skill); [|discriminate].
    apply bool_decide_eq_true in Hs. assumption.
Qed.

(** C4 (as the code has it). For a player whose total does not parse to
    0, whose records carry a damage string that reads as a number and an
    array of hit counts, the
    handler answers 200 with rows that are the rows of the records in
    another order: every row has at least the damage of the row after it,
    and the rows of one damage value follow each other as their records
    do. *)
Theorem C4_rows_sorted_by_damage (up : Upstream) (player : Player) (text : string)
    (skills : list SkillRecord) :
  player_damageDealt player = Some text ->
  parseInt (remove_dots text) <> Some 0 ->
  player_skills player = Some skills ->
  forallb well_formed skills = true ->
  exists dict unsorted rows,
    snd (Api.skillDictionary up (Api.uniqueSkillIds skills)) = Ok dict
    /\ map_throwing (Api.cleanRow (parseInt (remove_dots text)) dict) skills = Ok unsorted
    /\ snd (Api.analyze up player) = Ok {| status := 200; body := RowsBody rows |}
    /\ rows ≡ₚ unsorted
    /\ (forall i a b, rows !! i = Some a -> rows !! S i = Some b ->
          exists x y, row_damage a = Some x /\ row_damage b = Some y /\ x >= y)
    /\ (forall d, filter (fun row => row_damage row = Some d) rows
                  = filter (fun row => row_damage row = Some d) unsorted).
Proof.
  intros Htext Hnz Hskills Hwf.
  unfold Api.analyze, Api.totalDamage. rewrite Htext, Hskills. simpl.
  rewrite bool_decide_eq_false_2 by assumption. simpl.
  rewrite Api_skillDictionary_eq. simpl.
  set (total := parseInt (remove_dots text)).
  set (dict := dict_of_entries _).
  destruct (well_formed_rows total dict skills Hwf) as (unsorted & Hm & Hdom).
  exists dict, unsorted, (sort Api.byDamage unsorted).
  rewrite cleanedData_unfold, Hm. simpl.
  split; [reflexivity|]. split; [reflexivity|]. split; [reflexivity|].
  pose proof (sort_dom Api.byDamage _ unsorted Hdom) as Hsorted_dom.
  split; [apply sort_perm|]. split.
  - intros i a b Ha Hb.
    pose proof (Sorted_adjacent damage_key _ i a b
                  (sort_Sorted Api.byDamage damage_key _ byDamage_key unsorted Hdom)
                  Ha Hb) as Hle.
    rewrite Forall_forall in Hsorted_dom.
    destruct (Hsorted_dom a) as [x Hx]; [eapply list_elem_of_lookup_2, Ha|].
    destruct (Hsorted_dom b) as [y Hy]; [eapply list_elem_of_lookup_2, Hb|].
    exists x, y. unfold damage_key in Hle. rewrite Hx, Hy in Hle. simpl in Hle.
    split; [assumption|]. split; [assumption|lia].
  - intros d.
    pose proof (sort_filter Api.byDamage damage_key _ byDamage_key d unsorted Hdom) as Hf.
    assert (Hsame : forall l, Forall (fun row => is_Some (row_damage row)) l ->
              filter (fun row => row_damage row = Some d) l
              = filter (fun row => damage_key row = d) l).
    { intros l Hl. induction Hl as [|r l [x Hx] Hl IH]; [reflexivity|].
      rewrite !filter_cons, IH.
      assert (Hk : damage_key r = x) by (unfold damage_key; rewrite Hx; reflexivity).
      rewrite Hx, Hk.
      destruct (decide (Some x = Some d)), (decide (x = d)); congruence. }
    rewrite !Hsame by assumption. exact Hf.
Qed.

Lemma C4_rows_sorted_by_damage_witness :
  exists dict unsorted rows,
    snd (Api.skillDictionary example_upstream
           (Api.uniqueSkillIds [basic_attack; fireball])) = Ok dict
    /\ map_throwing (Api.cleanRow (parseInt (remove_dots "1.250")) dict)
         [basic_attack; fireball] = Ok unsorted
    /\ snd (Api.analyze example_upstream example_player)
       = Ok {| status := 200; body := RowsBody rows |}
    /\ rows ≡ₚ unsorted
    /\ (forall i a b, rows !! i = Some a -> rows !! S i = Some b ->
          exists x y, row_damage a = Some x /\ row_damage b = Some y /\ x >= y)
    /\ (forall d, filter (fun row => row_damage row = Some d) rows
                  = filter (fun row => row_damage row = Some d) unsorted).
Proof.
  apply (C4_rows_sorted_by_damage example_upstream example_player "1.250"
           [basic_attack; fireball]).
  - reflexivity.
  - intros H. vm_compute in H. discriminate H.
  - reflexivity.
  - reflexivity.
Defined.

(** Without a condition on the records the order fails.  The total of
    the player is 1250, one of the two records has a damage string that is
    not a number, and its row
    has NaN for its damage: in whatever order the two rows are answered,
    the pair they form is not in order, since NaN is at least nothing and
    nothing is at least NaN. *)
Lemma C4_counterexample :
  exists rows,
    Api.totalDamage unreadable_player = Ok (Some 1250)
    /\ snd (Api.analyze example_upstream unreadable_player)
       = Ok {| status := 200; body := RowsBody rows |}
    /\ length rows = 2%nat
    /\ forall rows',
         rows' ≡ₚ rows ->
         ~ (forall i a b, rows' !! i = Some a -> rows' !! S i = Some b ->
              exists x y, row_damage a = Some x /\ row_damage b = Some y /\ x >= y).
Proof.
  eexists. split; [reflexivity|]. split; [vm_compute; reflexivity|].
  split; [reflexivity|].
  intros rows' Hperm Hsorted.
  pose proof (Permutation_length Hperm) as Hlen.
  destruct rows' as [|a [|b [|c l]]]; try discriminate Hlen.
  destruct (Hsorted 0%nat a b eq_refl eq_refl) as (x & y & Ha & Hb & _).
  match type of Hperm with
  | _ ≡ₚ [?r; _] => assert (r ∈ [a; b]) as Hin by (rewrite Hperm; left)
  end.
  apply elem_of_cons in Hin as [<-|Hin]; [discriminate Ha|].
  apply list_elem_of_singleton in Hin. subst b. discriminate Hb.
Qed.

(** The example player: the record of 1000 damage moves in front of the
    basic attack of 250, which is named without a lookup. *)
Example analyze_example_player :
  Api.analyze example_upstream example_player
  = ([GetSkill 5],
     Ok {| status := 200;
           body := RowsBody
             [ {| row_name := JStr "Fireball"; row_damage := Some 1000;
                  row_percent := of_Z 80; row_crit_hits := "2 / 10";
                  row_crit_rate := of_Z 20 |};
               {| row_name := JStr "Basic Attack"; row_damage := Some 250;
                  row_percent := of_Z 20; row_crit_hits := "0 / 3";
                  row_crit_rate := of_Z 0 |} ] |}).
Proof. vm_compute. reflexivity. Qed.

Lemma Api_handler_selected (up : Upstream) (query : Query) (player : Player) :
  selected_player up query = Some player ->
  Api.handler up query
  = (GetRun (default "" (query_id query)) :: fst (Api.analyze up player),
     match snd (Api.analyze up player) with
     | Ok r => r
     | Throw e => {| status := 500; body := ErrorBody e |}
     end).
Proof.
  unfold selected_player, Api.handler, fetch_run.
  destruct (_ || _); [discriminate|].
  destruct (run_service up _) as [res|e]; simpl; [|discriminate].
  destruct (ok res); simpl; [|discriminate].
  destruct (json res) as [runData|e]; simpl; [|discriminate].
  destruct (gates runData) as [gs|]; simpl; [|discriminate].
  destruct (find _ gs) as [gate|]; simpl; [|discriminate].
  destruct (gate_players gate) as [ps|]; simpl; [|discriminate].
  destruct (find _ ps) as [p|]; simpl; [|discriminate].
  intros [= ->]. destruct (Api.analyze up player) as [t [r|e]]; reflexivity.
Qed.

(** C5. A player whose total damage string, with the dots removed, parses
    to 0 gets the answer 200 with the message and an empty [data]: this is
    what the handler sends for every request that arrives at this player.
    Nothing is looked up and the records are not touched, so that no
    quotient by the total is formed, whatever the player's [skills] are. *)
Theorem C5_zero_total_short_circuits (up : Upstream) (player : Player) (text : string) :
  player_damageDealt player = Some text ->
  parseInt (remove_dots text) = Some 0 ->
  Api.analyze up player
  = ([], Ok {| status := 200;
               body := MessageBody "Player has 0 damage for this gate." [] |})
  /\ forall query,
       selected_player up query = Some player ->
       Api.handler up query
       = ([GetRun (default "" (query_id query))],
          {| status := 200;
             body := MessageBody "Player has 0 damage for this gate." [] |}).
Proof.
  intros Htext Hzero.
  assert (Api.analyze up player
          = ([], Ok {| status := 200;
                       body := MessageBody "Player has 0 damage for this gate." [] |}))
    as Hanalyze.
  { unfold Api.analyze, Api.totalDamage. rewrite Htext, Hzero. reflexivity. }
  split; [exact Hanalyze|].
  intros query Hsel. rewrite (Api_handler_selected up query player Hsel), Hanalyze.
  reflexivity.
Qed.

Lemma C5_zero_total_short_circuits_witness :
  Api.handler idle_upstream idle_query
  = ([GetRun "1"],
     {| status := 200;
        body := MessageBody "Player has 0 damage for this gate." [] |}).
Proof.
  apply (proj2 (C5_zero_total_short_circuits idle_upstream idle_player "0.000"
                  eq_refl eq_refl) idle_query).
  reflexivity.
Defined.

(** C6. Total ["1.000"], one record [{id: 5, damage: "1.000", hitCounts:
    [8, 2]}] and the name mapping [{5: "Fireball"}]: the aggregator returns
    the single row [{name: "Fireball", damage: 1000, percent: 100,
    crit_hits: "2 / 10", crit_rate: 20}].  The handler returns the same row
    when the skill table names skill 5 "Fireball". *)
Theorem C6_fireball_scenario :
  let row := {| row_name := JStr "Fireball"; row_damage := Some 1000;
                row_percent := of_Z 100; row_crit_hits := "2 / 10";
                row_crit_rate := of_Z 20 |} in
  Api.cleanedData (parseInt (remove_dots "1.000")) {[ "5" := JStr "Fireball" ]} [fireball]
  = Ok [row]
  /\ Api.analyze example_upstream
       {| player_id := JNum 62257; player_damageDealt := Some "1.000";
          player_skills := Some [fireball] |}
     = ([GetSkill 5], Ok {| status := 200; body := RowsBody [row] |}).
Proof.
  split; vm_compute; reflexivity.
Qed.

(** ** Binary64: what never is NaN *)

Lemma shr_1_nonneg (mrs : shr_record) : 0 <= shr_m mrs -> 0 <= shr_m (shr_1 mrs).
Proof.
  destruct mrs as [m r s]. simpl. destruct m as [|p|p]; [simpl; lia| |lia].
  intros _. destruct p; simpl; lia.
Qed.

Lemma iter_pos_shr_1_nonneg (p : positive) (mrs : shr_record) :
  0 <= shr_m mrs -> 0 <= shr_m (iter_pos shr_1 p mrs).
Proof.
  revert mrs. induction p as [p IH|p IH|]; intros mrs Hm; simpl.
  - apply IH, IH, shr_1_nonneg, Hm.
  - apply IH, IH, Hm.
  - apply shr_1_nonneg, Hm.
Qed.

Lemma shr_fexp_nonneg (m e : Z) (l : location) :
  0 <= m -> 0 <= shr_m (fst (shr_fexp 53 1024 m e l)).
Proof.
  intros Hm. unfold shr_fexp, shr.
  assert (0 <= shr_m (shr_record_of_loc m l)) as Hrec.
  { destruct l as [|[]]; exact Hm. }
  destruct (_ - e) as [|p|p]; simpl; [exact Hrec| |exact Hrec].
  apply iter_pos_shr_1_nonneg, Hrec.
Qed.

Lemma round_nearest_even_nonneg (m : Z) (l : location) :
  0 <= m -> 0 <= round_nearest_even m l.
Proof.
  intros Hm. destruct l as [|[]]; simpl; try lia. destruct (Z.even m); lia.
Qed.

Lemma binary_round_aux_not_nan (s : bool) (m e : Z) (l : location) :
  0 <= m -> is_nan (binary_round_aux 53 1024 s m e l) = false.
Proof.
  intros Hm. unfold binary_round_aux.
  pose proof (shr_fexp_nonneg m e l Hm) as H1.
  destruct (shr_fexp 53 1024 m e l) as [mrs' e']. simpl in H1.
  pose proof (shr_fexp_nonneg _ e' loc_Exact
                (round_nearest_even_nonneg _ (loc_of_shr_record mrs') H1)) as H2.
  destruct (shr_fexp 53 1024 _ e' loc_Exact) as [mrs'' e'']. simpl in H2.
  destruct (shr_m mrs'') as [|p|p]; [reflexivity| |lia].
  destruct (e'' <=? _); reflexivity.
Qed.

Lemma digits2_pos_size (p : positive) : digits2_pos p = Pos.size p.
Proof. induction p as [p IH|p IH|]; simpl; congruence. Qed.

Lemma digits2_pos_bound (p : positive) (k : Z) :
  0 <= k -> Z.pos p < 2 ^ k -> Z.pos (digits2_pos p) <= k.
Proof.
  intros Hk Hp. rewrite digits2_pos_size.
  pose proof (Pos.size_le p) as Hle.
  apply Pos2Z.pos_le_pos in Hle. rewrite Pos2Z.inj_pow in Hle.
  change (Z.pos p~0) with (2 * Z.pos p) in Hle.
  assert (2 ^ Z.pos (Pos.size p) < 2 ^ (k + 1)) as Hlt.
  { rewrite Z.pow_add_r by lia. change (2 ^ 1) with 2. lia. }
  apply Z.pow_lt_mono_r_iff in Hlt; lia.
Qed.

Lemma digits2_pos_iter (p k : positive) :
  digits2_pos (Pos.iter xO p k) = (digits2_pos p + k)%positive.
Proof.
  induction k as [|k IH] using Pos.peano_ind.
  - simpl. apply eq_sym, Pos.add_1_r.
  - rewrite Pos.iter_succ. simpl. rewrite IH. lia.
Qed.

Lemma binary_round_aux_exact (s : bool) (mz : positive) (ez : Z) :
  Z.pos (digits2_pos mz) = 53 -> -1074 <= ez <= 971 ->
  binary_round_aux 53 1024 s (Z.pos mz) ez loc_Exact = S754_finite s mz ez.
Proof.
  intros Hd He. unfold binary_round_aux, shr_fexp. cbn [Zdigits2 shr_record_of_loc].
  replace (fexp 53 1024 (Z.pos (digits2_pos mz) + ez) - ez) with 0
    by (unfold fexp, emin; lia).
  cbn [shr loc_of_shr_record shr_m shr_r shr_s round_nearest_even Zdigits2
       shr_record_of_loc].
  replace (fexp 53 1024 (Z.pos (digits2_pos mz) + ez) - ez) with 0
    by (unfold fexp, emin; lia).
  cbn [shr shr_m]. destruct (Z.leb_spec ez (1024 - 53)); [reflexivity|lia].
Qed.

Lemma binary_round_safe (s : bool) (p : positive) :
  Z.pos p < 2 ^ 53 ->
  exists m e, binary_round 53 1024 s p 0 = S754_finite s m e.
Proof.
  intros Hp. pose proof (digits2_pos_bound p 53 ltac:(lia) Hp) as Hd.
  unfold binary_round, shl_align.
  replace (fexp 53 1024 (Z.pos (digits2_pos p) + 0) - 0)
    with (Z.pos (digits2_pos p) - 53) by (unfold fexp, emin; lia).
  destruct (Z.pos (digits2_pos p) - 53) as [|k|k] eqn:Hk; [|lia|].
  - exists p, 0. apply binary_round_aux_exact; lia.
  - exists (Pos.iter xO p k), (fexp 53 1024 (Z.pos (digits2_pos p) + 0)).
    apply binary_round_aux_exact.
    + rewrite digits2_pos_iter. lia.
    + unfold fexp, emin. lia.
Qed.

Lemma of_Z_not_nan (z : Z) : is_nan (of_Z z) = false.
Proof.
  unfold of_Z, binary_normalize, binary_round.
  destruct z as [|p|p]; [reflexivity| |];
    destruct (shl_align p 0 _) as [mz ez]; apply binary_round_aux_not_nan; lia.
Qed.

Lemma of_Z_safe (z : Z) : z <> 0 -> Z.abs z < 2 ^ 53 -> is_finite (of_Z z) = true.
Proof.
  intros Hz Hsafe. unfold of_Z, binary_normalize.
  destruct z as [|p|p]; [contradiction| |].
  - destruct (binary_round_safe false p Hsafe) as (m & e & ->). reflexivity.
  - destruct (binary_round_safe true p Hsafe) as (m & e & ->). reflexivity.
Qed.

Lemma fdiv_not_nan (x y : number) :
  is_nan x = false -> is_finite y = true -> is_nan (fdiv x y) = false.
Proof.
  destruct y as [| | |sy my ey]; try discriminate. intros Hx _.
  destruct x as [sx|sx| |sx mx ex]; try discriminate; try reflexivity.
  unfold fdiv, SFdiv, SFdiv_core_binary.
  set (m' := match _ - _ - _ with Z.pos _ => _ | 0 => Z.pos mx | Z.neg _ => 0 end).
  assert (0 <= m') as Hm'.
  { subst m'. destruct (_ - _ - _); [lia| |lia]. apply Z.shiftl_nonneg. lia. }
  pose proof (Z.div_pos m' (Z.pos my) Hm' ltac:(lia)) as Hq.
  unfold Z.div in Hq. destruct (Z.div_eucl m' (Z.pos my)) as [q r].
  apply binary_round_aux_not_nan, Hq.
Qed.

Lemma fmul_not_nan (x y : number) :
  is_nan x = false -> is_finite y = true -> is_nan (fmul x y) = false.
Proof.
  destruct y as [| | |sy my ey]; try discriminate. intros Hx _.
  destruct x as [sx|sx| |sx mx ex]; try discriminate; try reflexivity.
  apply binary_round_aux_not_nan. lia.
Qed.

Lemma rounded_not_nan (x : number) :
  is_nan x = false -> is_nan (parseFloat (toFixed1 x)) = false.
Proof.
  destruct x as [s|s| |s m e]; try discriminate; try reflexivity. intros _.
  unfold toFixed1. destruct (at_least_1e21 m e); [reflexivity|].
  unfold parseFloat. destruct (nearest_tenths m e) as [|n|n]; try reflexivity.
  apply fdiv_not_nan; reflexivity.
Qed.

Lemma percent_not_nan (x y : Z) :
  y <> 0 -> Z.abs y < 2 ^ 53 ->
  is_nan (parseFloat (toFixed1 (fmul (fdiv (of_Z x) (of_Z y)) (of_Z 100)))) = false.
Proof.
  intros Hy Hsafe. apply rounded_not_nan, fmul_not_nan; [|reflexivity].
  apply fdiv_not_nan; [apply of_Z_not_nan|apply of_Z_safe; assumption].
Qed.

(** ** Binary64: the safe integers *)

Lemma Pos_iter_xO (p k : positive) : Z.pos (Pos.iter xO p k) = Z.pos p * 2 ^ Z.pos k.
Proof.
  induction k as [|k IH] using Pos.peano_ind.
  - simpl. lia.
  - rewrite Pos.iter_succ, Pos2Z.inj_xO, IH, Pos2Z.inj_succ, Z.pow_succ_r by lia. ring.
Qed.

Lemma binary_round_safe_value (s : bool) (p : positive) :
  Z.pos p < 2 ^ 53 ->
  exists m e,
    binary_round 53 1024 s p 0 = S754_finite s m e /\ Z.shiftl (Z.pos m) e = Z.pos p.
Proof.
  intros Hp. pose proof (digits2_pos_bound p 53 ltac:(lia) Hp) as Hd.
  unfold binary_round, shl_align.
  replace (fexp 53 1024 (Z.pos (digits2_pos p) + 0) - 0)
    with (Z.pos (digits2_pos p) - 53) by (unfold fexp, emin; lia).
  destruct (Z.pos (digits2_pos p) - 53) as [|k|k] eqn:Hk; [|lia|].
  - exists p, 0. split; [apply binary_round_aux_exact; lia|reflexivity].
  - exists (Pos.iter xO p k), (Z.neg k).
    replace (fexp 53 1024 (Z.pos (digits2_pos p) + 0)) with (Z.neg k)
      by (unfold fexp, emin; lia).
    split.
    + apply binary_round_aux_exact; [rewrite digits2_pos_iter|]; lia.
    + change (Z.shiftl (Z.pos (Pos.iter xO p k)) (Z.neg k))
        with (Z.shiftr (Z.pos (Pos.iter xO p k)) (Z.pos k)).
      rewrite Z.shiftr_div_pow2, Pos_iter_xO by lia.
      apply Z.div_mul. lia.
Qed.

Lemma round64_safe (z : Z) : Z.abs z < 2 ^ 53 -> round64 z = z.
Proof.
  intros Hsafe. unfold round64, of_Z, binary_normalize.
  destruct z as [|p|p]; [reflexivity| |].
  - destruct (binary_round_safe_value false p Hsafe) as (m & e & -> & Hv). exact Hv.
  - destruct (binary_round_safe_value true p Hsafe) as (m & e & -> & Hv).
    simpl. rewrite Hv. reflexivity.
Qed.




(** ** Printing an integer and reading it back *)

Lemma pretty_N_char_digit (d : N) :
  (d < 10)%N ->
  digit_of (pretty_N_char d) = Some (Z.of_N d).
Proof.
  intros Hd.
  assert (d = 0 \/ d = 1 \/ d = 2 \/ d = 3 \/ d = 4 \/ d = 5 \/ d = 6 \/ d = 7
          \/ d = 8 \/ d = 9)%N as Hcases by lia.
  repeat (destruct Hcases as [->|Hcases]; [reflexivity|]). subst d. reflexivity.
Qed.

Lemma digits_pretty_N_go (x : N) :
  (0 < x)%N ->
  forall acc s, exists k,
    0 <= k
    /\ digits acc (pretty_N_go x s)
       = digits (Some (default 0 acc * 10 ^ k + Z.of_N x)) s.
Proof.
  induction (N.lt_wf_0 x) as [x _ IH]. intros Hx acc s.
  rewrite pretty_N_go_step by assumption.
  assert (Hr : (x `mod` 10 < 10)%N) by (apply N.mod_lt; lia).
  assert (Hsplit : Z.of_N x = 10 * Z.of_N (x `div` 10) + Z.of_N (x `mod` 10)).
  { rewrite <- (N2Z.inj_mul 10), <- N2Z.inj_add. f_equal. apply N.div_mod. lia. }
  destruct (decide (x `div` 10 = 0)%N) as [Hq|Hq].
  - rewrite Hq, pretty_N_go_0. exists 1. split; [lia|].
    cbn [digits]. rewrite pretty_N_char_digit by assumption.
    f_equal. f_equal. rewrite Hq in Hsplit. lia.
  - destruct (IH (x `div` 10)%N) with (acc := acc)
      (s := String (pretty_N_char (x `mod` 10)) s) as (k & Hk & ->).
    + apply N.div_lt; lia.
    + lia.
    + exists (k + 1). split; [lia|].
      cbn [digits]. rewrite pretty_N_char_digit by assumption.
      f_equal. f_equal. cbn [default]. unfold id. rewrite Z.pow_add_r, Hsplit by lia.
      change (10 ^ 1) with 10. ring.
Qed.

Lemma pretty_N_go_head (x : N) :
  (0 < x)%N ->
  forall s, exists d rest, (d < 10)%N /\ pretty_N_go x s = String (pretty_N_char d) rest.
Proof.
  induction (N.lt_wf_0 x) as [x _ IH]. intros Hx s.
  rewrite pretty_N_go_step by assumption.
  destruct (decide (x `div` 10 = 0)%N) as [Hq|Hq].
  - rewrite Hq, pretty_N_go_0. exists (x `mod` 10)%N, s.
    split; [apply N.mod_lt; lia|reflexivity].
  - apply IH; [apply N.div_lt; lia|apply N.neq_0_lt_0; assumption].
Qed.

Lemma digits_pretty_positive (p : positive) :
  digits None (pretty_N_go (N.pos p) "") = (Some (Z.pos p), "").
Proof.
  destruct (digits_pretty_N_go (N.pos p)) with (acc := @None Z) (s := "")
    as (k & _ & ->); [lia|].
  reflexivity.
Qed.







Lemma parseInt_digit (d : N) (rest : string) :
  (d < 10)%N ->
  parseInt (String (pretty_N_char d) rest)
  = round64 <$> fst (digits None (String (pretty_N_char d) rest)).
Proof.
  intros Hd.
  assert (d = 0 \/ d = 1 \/ d = 2 \/ d = 3 \/ d = 4 \/ d = 5 \/ d = 6 \/ d = 7
          \/ d = 8 \/ d = 9)%N as Hcases by lia.
  repeat (destruct Hcases as [->|Hcases]; [reflexivity|]). subst d. reflexivity.
Qed.

(** [parseInt] reads the printing of an integer as the number nearest to
    it, which is the integer itself when it is a safe integer. *)
Lemma parseInt_show (n : Z) : parseInt (show n) = Some (round64 n).
Proof.
  destruct n as [|p|p]; [reflexivity| |].
  - change (show (Z.pos p)) with (pretty_N_go (N.pos p) "").
    destruct (pretty_N_go_head (N.pos p)) with (s := "") as (d & rest & Hd & Hhead);
      [lia|].
    pose proof (digits_pretty_positive p) as Hdigits.
    rewrite Hhead in *. rewrite parseInt_digit by assumption.
    rewrite Hdigits. reflexivity.
  - change (show (Z.neg p)) with (String "-" (pretty_N_go (N.pos p) "")).
    unfold parseInt. cbn [skip_ws]. change (is_ws "-") with false. cbv iota.
    change (code "-" <? 128) with true. cbv iota.
    rewrite digits_pretty_positive. reflexivity.
Qed.


(** ** Locating the gate and the player *)

Lemma isGate_spec (gid : string) (g : Gate) :
  Api.isGate gid g = true <-> gate_id g = JStr gid.
Proof.
  unfold Api.isGate, strict_eq_str. destruct (gate_id g) as [| |b|n|s]; try (split; discriminate).
  rewrite String.eqb_eq. split; [intros ->; reflexivity|intros [= ->]; reflexivity].
Qed.







(** The request of the example with its player spelled [62257.0]: the
    player is found all the same, skill 5 is looked up and the rows are
    answered. *)
Example handler_other_spelling :
  Api.handler example_upstream
    (single_query "776482144628289536" "62257.0" "776482144628289536")
  = Api.handler example_upstream example_query
  /\ fst (Api.handler example_upstream example_query)
     = [GetRun "776482144628289536"; GetSkill 5]
  /\ status (snd (Api.handler example_upstream example_query)) = 200.
Proof. split; [|split]; vm_compute; reflexivity. Qed.

(** * Further properties of the handlers *)

(** ** The single-player handler, case by case *)

#[local] Instance GetSkill_inj : Inj (=) (=) GetSkill.
Proof. intros X Y [= ->]. reflexivity. Qed.

Lemma api_calls_filter (ids : list Z) :
  ids ≫= api_calls = GetSkill <$> filter (fun X => 0 <= X) ids.
Proof.
  induction ids as [|X ids IH]; [reflexivity|].
  rewrite bind_cons, filter_cons, IH. unfold api_calls.
  destruct (Z.ltb_spec X 0); destruct (decide (0 <= X)); try lia; reflexivity.
Qed.

Lemma Api_analyze_cases (up : Upstream) (player : Player) :
  (exists e, Api.analyze up player = ([], Throw e))
  \/ (Api.totalDamage player = Ok (Some 0)
      /\ Api.analyze up player
         = ([], Ok {| status := 200;
                      body := MessageBody "Player has 0 damage for this gate." [] |}))
  \/ (exists total skills,
        Api.totalDamage player = Ok total /\ total <> Some 0
        /\ player_skills player = Some skills
        /\ Api.analyze up player
           = (GetSkill <$> filter (fun X => 0 <= X) (Api.uniqueSkillIds skills),
              match Api.cleanedData total
                      (dict_of_entries (api_entry up <$> Api.uniqueSkillIds skills))
                      skills with
              | Ok rows => Ok {| status := 200; body := RowsBody rows |}
              | Throw e => Throw e
              end)).
Proof.
  unfold Api.analyze.
  destruct (Api.totalDamage player) as [total|e] eqn:Htotal; simpl; [|eauto].
  case_bool_decide as Hzero; simpl.
  { subst total. right. left. split; reflexivity. }
  destruct (player_skills player) as [skills|]; simpl; [|eauto].
  right. right. exists total, skills.
  rewrite Api_skillDictionary_eq. simpl.
  rewrite api_calls_filter.
  destruct (Api.cleanedData _ _ skills) as [rows|e]; simpl; rewrite app_nil_r; auto.
Qed.

Lemma Api_handler_missing (up : Upstream) (query : Query) :
  missing (query_id query) || missing (query_player_id query)
  || missing (query_gate_id query) = true ->
  Api.handler up query
  = ([], {| status := 400;
            body := ErrorBody (Error "Missing required query parameters. 'id', 'player_id', and 'gate_id' are all required.") |}).
Proof. intros H. unfold Api.handler. rewrite H. reflexivity. Qed.

Lemma Api_handler_not_selected (up : Upstream) (query : Query) :
  missing (query_id query) || missing (query_player_id query)
  || missing (query_gate_id query) = false ->
  selected_player up query = None ->
  exists e,
    Api.handler up query
    = ([GetRun (default "" (query_id query))],
       {| status := 500; body := ErrorBody e |}).
Proof.
  intros Hpresent. unfold selected_player, Api.handler, fetch_run. rewrite Hpresent.
  destruct (run_service up _) as [res|e]; simpl; [|eauto].
  destruct (ok res); simpl; [|eauto].
  destruct (json res) as [runData|e]; simpl; [|eauto].
  destruct (gates runData) as [gs|]; simpl; [|eauto].
  destruct (find _ gs) as [gate|]; simpl; [|eauto].
  destruct (gate_players gate) as [ps|]; simpl; [|eauto].
  destruct (find _ ps) as [p|]; simpl; [discriminate|eauto].
Qed.

Lemma selected_player_present (up : Upstream) (query : Query) (player : Player) :
  selected_player up query = Some player ->
  missing (query_id query) || missing (query_player_id query)
  || missing (query_gate_id query) = false.
Proof.
  unfold selected_player. destruct (_ || _); [discriminate|reflexivity].
Qed.

(** X1. What the single-player handler answers is fixed by its status: 400
    is the answer exactly when one of [id], [player_id], [gate_id] is absent
    or empty, it carries the fixed message and no call is issued; 500
    carries an error; 200 carries either the zero-damage message with empty
    [data] or the rows.  There is no other status. *)
Theorem Api_handler_answer_shape (up : Upstream) (query : Query) :
  (missing (query_id query) || missing (query_player_id query)
   || missing (query_gate_id query) = true
   <-> status (snd (Api.handler up query)) = 400)
  /\ (status (snd (Api.handler up query)) = 400
      /\ fst (Api.handler up query) = []
      /\ body (snd (Api.handler up query))
         = ErrorBody (Error "Missing required query parameters. 'id', 'player_id', and 'gate_id' are all required.")
      \/ status (snd (Api.handler up query)) = 500
         /\ (exists e, body (snd (Api.handler up query)) = ErrorBody e)
      \/ status (snd (Api.handler up query)) = 200
         /\ (body (snd (Api.handler up query))
             = MessageBody "Player has 0 damage for this gate." []
             \/ exists rows, body (snd (Api.handler up query)) = RowsBody rows)).
Proof.
  destruct (missing (query_id query) || missing (query_player_id query)
            || missing (query_gate_id query)) eqn:Hmissing.
  - rewrite (Api_handler_missing up query Hmissing). simpl.
    split; [split; reflexivity|]. left. auto.
  - assert (status (snd (Api.handler up query)) <> 400
            /\ (status (snd (Api.handler up query)) = 500
                /\ (exists e, body (snd (Api.handler up query)) = ErrorBody e)
                \/ status (snd (Api.handler up query)) = 200
                   /\ (body (snd (Api.handler up query))
                       = MessageBody "Player has 0 damage for this gate." []
                       \/ exists rows, body (snd (Api.handler up query)) = RowsBody rows)))
      as [Hne Hshape].
    { destruct (selected_player up query) as [player|] eqn:Hsel.
      - rewrite (Api_handler_selected up query player Hsel). simpl.
        destruct (Api_analyze_cases up player)
          as [[e ->]|[[_ ->]|(total & skills & _ & _ & _ & ->)]]; simpl.
        + split; [discriminate|]. left. eauto.
        + split; [discriminate|]. right. auto.
        + destruct (Api.cleanedData _ _ skills) as [rows|e]; simpl.
          * split; [discriminate|]. right. eauto.
          * split; [discriminate|]. left. eauto.
      - destruct (Api_handler_not_selected up query Hmissing Hsel) as [e ->]. simpl.
        split; [discriminate|]. left. eauto. }
    split; [split; [discriminate|intros H; contradiction]|]. right. exact Hshape.
Qed.

Lemma Api_handler_answer_shape_witness :
  status (snd (Api.handler example_upstream
                 {| query_id := Some "1"; query_player_id := Some "";
                    query_gate_id := Some "g" |})) = 400.
Proof.
  apply (proj1 (Api_handler_answer_shape example_upstream
                  {| query_id := Some "1"; query_player_id := Some "";
                     query_gate_id := Some "g" |})).
  reflexivity.
Defined.

(** X2. Every request to the single-player handler fetches the run at most
    once, before anything else, and looks a skill up at most once: the calls
    are none (answer 400), or the run fetch followed by lookups of distinct
    identifiers, none of them below zero, all of them identifiers of the
    selected player's records. *)
Theorem Api_handler_calls_once (up : Upstream) (query : Query) :
  NoDup (fst (Api.handler up query))
  /\ (fst (Api.handler up query) = []
      \/ exists ids,
           fst (Api.handler up query)
           = GetRun (default "" (query_id query)) :: (GetSkill <$> ids)
           /\ NoDup ids
           /\ forall X, X ∈ ids ->
                0 <= X
                /\ exists player, selected_player up query = Some player
                                  /\ X ∈ skill_id <$> skills_of player).
Proof.
  assert (fst (Api.handler up query) = []
          \/ exists ids,
               fst (Api.handler up query)
               = GetRun (default "" (query_id query)) :: (GetSkill <$> ids)
               /\ NoDup ids
               /\ forall X, X ∈ ids ->
                    0 <= X
                    /\ exists player, selected_player up query = Some player
                                      /\ X ∈ skill_id <$> skills_of player) as Hcalls.
  { destruct (missing (query_id query) || missing (query_player_id query)
              || missing (query_gate_id query)) eqn:Hmissing.
    { left. rewrite (Api_handler_missing up query Hmissing). reflexivity. }
    right. destruct (selected_player up query) as [player|] eqn:Hsel.
    - rewrite (Api_handler_selected up query player Hsel). simpl.
      destruct (Api_analyze_cases up player)
        as [[e ->]|[[_ ->]|(total & skills & _ & _ & Hskills & ->)]]; simpl.
      + exists []. split; [reflexivity|]. split; [constructor|].
        intros X HX. apply elem_of_nil in HX. contradiction.
      + exists []. split; [reflexivity|]. split; [constructor|].
        intros X HX. apply elem_of_nil in HX. contradiction.
      + exists (filter (fun X => 0 <= X) (Api.uniqueSkillIds skills)).
        split; [reflexivity|]. split; [apply NoDup_filter, NoDup_Set_of|].
        intros X HX. apply list_elem_of_filter in HX as [Hpos HX].
        split; [assumption|]. exists player. split; [reflexivity|].
        unfold skills_of. rewrite Hskills. apply elem_of_Set_of, HX.
    - destruct (Api_handler_not_selected up query Hmissing Hsel) as [e ->]. simpl.
      exists []. split; [reflexivity|]. split; [constructor|].
      intros X HX. apply elem_of_nil in HX. contradiction. }
  split; [|exact Hcalls].
  destruct Hcalls as [->|(ids & -> & Hnodup & _)]; [constructor|].
  constructor.
  - intros Hin. apply list_elem_of_fmap in Hin as (X & HX & _). discriminate.
  - apply (NoDup_fmap_2 GetSkill). assumption.
Qed.

Lemma Api_handler_calls_once_witness :
  exists ids,
    fst (Api.handler example_upstream example_query)
    = GetRun "776482144628289536" :: (GetSkill <$> ids)
    /\ 5 ∈ ids /\ 0 <= 5.
Proof.
  destruct (proj2 (Api_handler_calls_once example_upstream example_query))
    as [Hnil|(ids & Hcalls & _ & Hids)].
  - vm_compute in Hnil. discriminate Hnil.
  - exists ids. split; [exact Hcalls|].
    assert (5 ∈ ids) as H5.
    { vm_compute in Hcalls. injection Hcalls as Hcalls.
      destruct ids as [|X [|Y ids]]; try discriminate Hcalls.
      injection Hcalls as <-. constructor. }
    split; [exact H5|]. exact (proj1 (Hids 5 H5)).
Defined.

Lemma find_none_iff {A} (f : A -> bool) (l : list A) :
  find f l = None <-> forall a, a ∈ l -> f a = false.
Proof.
  induction l as [|b l IH]; simpl.
  - split; [|reflexivity]. intros _ a Ha. apply elem_of_nil in Ha. contradiction.
  - destruct (f b) eqn:Hb.
    + split; [discriminate|]. intros H. rewrite (H b) in Hb by left. discriminate.
    + rewrite IH. split.
      * intros H a Ha. apply elem_of_cons in Ha as [->|Ha]; [assumption|apply H, Ha].
      * intros H a Ha. apply H. right. assumption.
Qed.

Lemma missing_nonempty (s : string) : s <> "" -> missing (Some s) = false.
Proof. intros Hs. simpl. apply String.eqb_neq, Hs. Qed.

(** X3. Once the run is delivered, a [gate_id] that is the id of no gate of
    the run is answered with 500 and ["Gate with ID '...' not found."]; a
    [player_id] that matches no player of the gate found is answered with
    500 and a message naming the parameter and the gate.  In both cases the
    run fetch is the only call. *)
Theorem Api_handler_not_found (up : Upstream) (id pid gid : string)
    (res : HttpResponse Run) (runData : Run) (gs : list Gate) :
  id <> "" -> pid <> "" -> gid <> "" ->
  run_service up id = Ok res -> ok res = true -> json res = Ok runData ->
  gates runData = Some gs ->
  ((forall g, g ∈ gs -> gate_id g <> JStr gid) ->
   Api.handler up {| query_id := Some id; query_player_id := Some pid;
                     query_gate_id := Some gid |}
   = ([GetRun id],
      {| status := 500;
         body := ErrorBody (Error ("Gate with ID '" +:+ gid +:+ "' not found.")) |}))
  /\ (forall gate ps,
        find (Api.isGate gid) gs = Some gate ->
        gate_players gate = Some ps ->
        (forall p, p ∈ ps -> Api.isPlayer pid p = false) ->
        Api.handler up {| query_id := Some id; query_player_id := Some pid;
                          query_gate_id := Some gid |}
        = ([GetRun id],
           {| status := 500;
              body := ErrorBody
                (Error ("Player with ID '" +:+ pid +:+ "' not found in gate '"
                        +:+ gate_name gate +:+ "'.")) |})).
Proof.
  intros Hid Hpid Hgid Hrun Hok Hjson Hgates.
  split.
  - intros Hnone. unfold Api.handler, fetch_run.
    cbn [query_id query_player_id query_gate_id].
    rewrite !missing_nonempty by assumption. simpl.
    rewrite Hrun. simpl. rewrite Hok. simpl. rewrite Hjson. simpl.
    rewrite Hgates. simpl.
    assert (find (Api.isGate gid) gs = None) as ->; [|reflexivity].
    apply find_none_iff. intros g Hg. destruct (Api.isGate gid g) eqn:Hm; [|reflexivity].
    apply isGate_spec in Hm. destruct (Hnone g Hg Hm).
  - intros gate ps Hgate Hps Hnone. unfold Api.handler, fetch_run.
    cbn [query_id query_player_id query_gate_id].
    rewrite !missing_nonempty by assumption. simpl.
    rewrite Hrun. simpl. rewrite Hok. simpl. rewrite Hjson. simpl.
    rewrite Hgates. simpl. rewrite Hgate. simpl. rewrite Hps. simpl.
    rewrite (proj2 (find_none_iff _ ps) Hnone). reflexivity.
Qed.

Lemma Api_handler_not_found_witness :
  Api.handler example_upstream
    {| query_id := Some "1"; query_player_id := Some "99"; query_gate_id := Some "Pride" |}
  = ([GetRun "1"],
     {| status := 500; body := ErrorBody (Error "Gate with ID 'Pride' not found.") |})
  /\ Api.handler example_upstream
       {| query_id := Some "1"; query_player_id := Some "99";
          query_gate_id := Some "776482144628289536" |}
     = ([GetRun "1"],
        {| status := 500;
           body := ErrorBody (Error "Player with ID '99' not found in gate 'Total'.") |}).
Proof.
  split.
  - eapply (proj1 (Api_handler_not_found example_upstream "1" "99" "Pride" _ example_run
                     [example_gate] ltac:(discriminate) ltac:(discriminate)
                     ltac:(discriminate) eq_refl eq_refl eq_refl eq_refl)).
    intros g Hg. apply list_elem_of_singleton in Hg. subst g. discriminate.
  - eapply (proj2 (Api_handler_not_found example_upstream "1" "99" "776482144628289536"
                     _ example_run [example_gate] ltac:(discriminate)
                     ltac:(discriminate) ltac:(discriminate)
                     eq_refl eq_refl eq_refl eq_refl) example_gate [example_player]).
    + reflexivity.
    + reflexivity.
    + intros p Hp. apply list_elem_of_singleton in Hp. subst p. reflexivity.
Defined.

(** ** When the run is not delivered *)

(** X4. If the run cannot be had, both serverless handlers answer 500 and
    the run fetch stays their only call, whatever the skill table would
    say: a rejected [fetch] and a body that is not JSON are passed on as
    they are, and a reply that is not [ok] is reported with its status text
    (the full-data handler also names the run). *)
Theorem run_not_delivered (up : Upstream) (id pid gid : string) :
  id <> "" -> pid <> "" -> gid <> "" ->
  (forall e, run_service up id = Throw e ->
     Api.handler up (single_query id pid gid)
     = ([GetRun id], {| status := 500; body := ErrorBody e |})
     /\ RunData.handler up (full_query id)
        = ([GetRun id], {| status := 500; body := ErrorBody e |}))
  /\ (forall res, run_service up id = Ok res -> ok res = false ->
        Api.handler up (single_query id pid gid)
        = ([GetRun id],
           {| status := 500;
              body := ErrorBody (Error ("Failed to fetch run data: "
                                        +:+ statusText res)) |})
        /\ RunData.handler up (full_query id)
           = ([GetRun id],
              {| status := 500;
                 body := ErrorBody (Error ("Failed to fetch run data (ID: " +:+ id
                                           +:+ "): " +:+ statusText res)) |}))
  /\ (forall res e, run_service up id = Ok res -> ok res = true -> json res = Throw e ->
        Api.handler up (single_query id pid gid)
        = ([GetRun id], {| status := 500; body := ErrorBody e |})
        /\ RunData.handler up (full_query id)
           = ([GetRun id], {| status := 500; body := ErrorBody e |})).
Proof.
  intros Hid Hpid Hgid.
  unfold Api.handler, RunData.handler, fetch_run, single_query, full_query.
  cbn [query_id query_player_id query_gate_id].
  rewrite !missing_nonempty by assumption. simpl.
  split; [|split].
  - intros e ->. split; reflexivity.
  - intros res -> Hok. simpl. rewrite Hok. split; reflexivity.
  - intros res e -> Hok Hjson. simpl. rewrite Hok. simpl. rewrite Hjson. split; reflexivity.
Qed.

Lemma run_not_delivered_witness :
  Api.handler down_upstream (single_query "1" "62257" "Total")
  = ([GetRun "1"],
     {| status := 500;
        body := ErrorBody (Error "Failed to fetch run data: Service Unavailable") |}).
Proof.
  refine (proj1 (proj1 (proj2 (run_not_delivered down_upstream "1" "62257" "Total"
                                 _ _ _))
                   _ eq_refl eq_refl));
    discriminate.
Defined.

(** ** The full-data handler and the stand-alone server *)

Lemma settled_truthy (X : Z) (answer : result (HttpResponse SkillBody)) :
  truthy (settled X answer) = true.
Proof.
  unfold settled. destruct answer as [res|e]; [|reflexivity].
  destruct (json res) as [[|v]|e]; try reflexivity.
  unfold or_else. destruct (truthy v) eqn:Hv; [assumption|reflexivity].
Qed.

Lemma full_dictionary_truthy (up : Upstream) (ids : list Z) (k : string) (v : jsval) :
  (<["-1" := JStr "Basic Attack"]> (dict_of_entries (settled_entry up <$> ids))) !! k
  = Some v ->
  truthy v = true.
Proof.
  destruct (decide (k = "-1")) as [->|Hne].
  - rewrite lookup_insert_eq. intros [= <-]. reflexivity.
  - rewrite lookup_insert_ne by congruence. intros Hv.
    apply dict_of_entries_key in Hv as (X & _ & _ & ->). apply settled_truthy.
Qed.

Lemma api_dictionary_truthy (up : Upstream) (ids : list Z) (k : string) (v : jsval) :
  dict_of_entries (api_entry up <$> ids) !! k = Some v -> truthy v = true.
Proof.
  intros Hv. apply dict_of_entries_key in Hv as (X & _ & _ & ->).
  destruct (X <? 0); [reflexivity|apply settled_truthy].
Qed.

Lemma RunData_handler_delivered (up : Upstream) (id : string) (res : HttpResponse Run)
    (runData : Run) :
  id <> "" -> run_service up id = Ok res -> ok res = true -> json res = Ok runData ->
  RunData.handler up (full_query id)
  = (GetRun id :: (GetSkill <$> Index.uniqueSkillIds runData),
     {| status := 200;
        body := RunBody runData
                  (<["-1" := JStr "Basic Attack"]>
                     (dict_of_entries
                        (settled_entry up <$> Index.uniqueSkillIds runData))) |}).
Proof.
  intros Hid Hrun Hok Hjson. unfold RunData.handler, fetch_run, full_query.
  cbn [query_id]. rewrite missing_nonempty by assumption. simpl.
  rewrite Hrun. simpl. rewrite Hok. simpl. rewrite Hjson. simpl.
  change (RunData.skillDictionary up (RunData.uniqueSkillIds runData))
    with (Index.skillDictionary up (Index.uniqueSkillIds runData)).
  rewrite Index_skillDictionary_eq. simpl. rewrite app_nil_r. reflexivity.
Qed.

(** X5. Once the run is delivered, the full-data handler answers 200
    whatever the skill table does: the body holds the run as it was
    delivered and a dictionary; the calls are the run fetch followed by one
    lookup for each identifier above zero of the run's records, each
    identifier once. *)
Theorem RunData_handler_success (up : Upstream) (id : string) (res : HttpResponse Run)
    (runData : Run) :
  id <> "" -> run_service up id = Ok res -> ok res = true -> json res = Ok runData ->
  exists dict ids,
    RunData.handler up (full_query id)
    = (GetRun id :: (GetSkill <$> ids),
       {| status := 200; body := RunBody runData dict |})
    /\ NoDup ids
    /\ (forall X, X ∈ ids <-> 0 < X /\ X ∈ run_skill_ids runData)
    /\ NoDup (fst (RunData.handler up (full_query id))).
Proof.
  intros Hid Hrun Hok Hjson.
  rewrite (RunData_handler_delivered up id res runData Hid Hrun Hok Hjson).
  eexists. exists (Index.uniqueSkillIds runData).
  split; [reflexivity|].
  assert (NoDup (Index.uniqueSkillIds runData)) as Hnodup.
  { rewrite Index_uniqueSkillIds_spec. apply NoDup_Set_of. }
  split; [exact Hnodup|]. split; [apply elem_of_Index_uniqueSkillIds|].
  simpl. constructor.
  - intros Hin. apply list_elem_of_fmap in Hin as (X & HX & _). discriminate.
  - apply (NoDup_fmap_2 GetSkill), Hnodup.
Qed.

Lemma RunData_handler_success_witness :
  exists dict ids,
    RunData.handler example_upstream (full_query "776482144628289536")
    = (GetRun "776482144628289536" :: (GetSkill <$> ids),
       {| status := 200; body := RunBody example_run dict |})
    /\ NoDup ids.
Proof.
  destruct (RunData_handler_success example_upstream "776482144628289536" _ example_run
              ltac:(discriminate) eq_refl eq_refl eq_refl)
    as (dict & ids & Hhandler & Hnodup & _).
  exists dict, ids. split; [exact Hhandler|exact Hnodup].
Defined.

(** X6. No name in a dictionary is falsy: in every variant each value of
    the dictionary that the resolver returns is truthy (a non-empty string,
    or whatever truthy value the skill table sent), so that reading a name
    with [dict[id] || ...] falls back only for a key that is not there. *)
Theorem dictionary_names_truthy (up : Upstream) (ids : list Z) :
  (exists dict,
      snd (Index.skillDictionary up ids) = Ok dict
      /\ snd (RunData.skillDictionary up ids) = Ok dict
      /\ forall k v, dict !! k = Some v -> truthy v = true)
  /\ (exists dict,
        snd (Api.skillDictionary up ids) = Ok dict
        /\ forall k v, dict !! k = Some v -> truthy v = true).
Proof.
  split; eexists.
  - rewrite (RunData_skillDictionary_Index up ids), Index_skillDictionary_eq. simpl.
    split; [reflexivity|]. split; [reflexivity|]. apply full_dictionary_truthy.
  - rewrite Api_skillDictionary_eq. simpl. split; [reflexivity|].
    apply api_dictionary_truthy.
Qed.

Lemma dictionary_names_truthy_witness :
  exists dict,
    snd (Api.skillDictionary example_upstream [5; 7]) = Ok dict
    /\ truthy (JStr "Unknown Skill (7)") = true.
Proof.
  destruct (proj2 (dictionary_names_truthy example_upstream [5; 7])) as (dict & Hd & Hv).
  exists dict. split; [exact Hd|].
  apply (Hv "7"). vm_compute in Hd. injection Hd as <-. reflexivity.
Defined.

Lemma RunData_handler_handleApiRequest (up : Upstream) (query : Query) :
  missing (query_id query) = false ->
  RunData.handler up query
  = (fst (Index.handleApiRequest up (default "" (query_id query))),
     match snd (Index.handleApiRequest up (default "" (query_id query))) with
     | Ok (runData, dict) => {| status := 200; body := RunBody runData dict |}
     | Throw e => {| status := 500; body := ErrorBody e |}
     end).
Proof.
  intros Hpresent. unfold RunData.handler, Index.handleApiRequest, fetch_run.
  rewrite Hpresent.
  destruct (run_service up _) as [res|e]; simpl; [|reflexivity].
  destruct (ok res); simpl; [|reflexivity].
  destruct (json res) as [runData|e]; simpl; [|reflexivity].
  change (RunData.skillDictionary up (RunData.uniqueSkillIds runData))
    with (Index.skillDictionary up (Index.uniqueSkillIds runData)).
  rewrite Index_skillDictionary_eq. reflexivity.
Qed.

(** X7. The stand-alone server and the serverless full-data handler are the
    same endpoint: on [/api/get-run-data], for every query and whatever the
    upstream services answer, the server issues the same calls, answers
    with the same status, and sends the same JSON body, except that an
    error whose message is empty is sent with the text
    ["An internal server error occurred."]. *)
Theorem Server_agrees_with_RunData (up : Upstream) (query : Query) :
  let served := Server.server up {| Server.pathname := "/api/get-run-data";
                                    Server.query := query |} in
  fst served = fst (RunData.handler up query)
  /\ Server.code (snd served) = status (snd (RunData.handler up query))
  /\ Server.content (snd served)
     = Server.Json
         match body (snd (RunData.handler up query)) with
         | ErrorBody e => Server.message_or_default e
         | b => b
         end.
Proof.
  unfold Server.server. simpl.
  destruct (missing (query_id query)) eqn:Hmissing.
  - unfold RunData.handler. rewrite Hmissing. simpl. auto.
  - rewrite (RunData_handler_handleApiRequest up query Hmissing).
    destruct (Index.handleApiRequest up _) as [t [[runData dict]|e]]; simpl; auto.
Qed.

(** X8. The server contacts the upstream services for [/api/get-run-data]
    only: [/] is answered with the page and every other path with 404 and
    [{ error: "Not Found" }], whatever the query is.  The [Cache-Control]
    header is sent exactly with the 200 answers of [/api/get-run-data], and
    the status is one of 200, 400, 404 and 500. *)
Theorem Server_routes (up : Upstream) (req : Server.Request) :
  (Server.pathname req = "/" ->
   Server.server up req
   = ([], {| Server.code := 200;
             Server.headers := [("Content-Type", "text/html")];
             Server.content := Server.HTML_CONTENT |}))
  /\ (Server.pathname req <> "/" -> Server.pathname req <> "/api/get-run-data" ->
      Server.server up req
      = ([], {| Server.code := 404;
                Server.headers := [("Content-Type", "application/json")];
                Server.content := Server.Json (ErrorBody (Error "Not Found")) |}))
  /\ (Server.pathname req <> "/api/get-run-data" -> fst (Server.server up req) = [])
  /\ (("Cache-Control", "s-maxage=3600, stale-while-revalidate")
        ∈ Server.headers (snd (Server.server up req))
      <-> Server.pathname req = "/api/get-run-data"
          /\ Server.code (snd (Server.server up req)) = 200)
  /\ Server.code (snd (Server.server up req)) ∈ [200; 400; 404; 500].
Proof.
  unfold Server.server.
  destruct (String.eqb_spec (Server.pathname req) "/") as [Hroot|Hroot].
  { split; [reflexivity|]. split; [contradiction|]. split; [reflexivity|].
    rewrite Hroot. simpl. split; [|repeat constructor].
    split; [|intros [H _]; discriminate H].
    intros H. apply list_elem_of_singleton in H. discriminate H. }
  destruct (String.eqb_spec (Server.pathname req) "/api/get-run-data") as [Hapi|Hapi].
  - split; [contradiction|]. split; [contradiction|]. split; [contradiction|].
    destruct (missing _).
    { simpl. split; [|repeat constructor].
      split; [|intros [_ H]; discriminate H].
      intros H. apply list_elem_of_singleton in H. discriminate H. }
    destruct (Index.handleApiRequest up _) as [t [[runData dict]|e]]; simpl.
    + split; [|repeat constructor]. split; [auto|]. intros _. left.
    + split; [|repeat constructor].
      split; [|intros [_ H]; discriminate H].
      intros H. apply list_elem_of_singleton in H. discriminate H.
  - split; [contradiction|]. split; [reflexivity|]. split; [reflexivity|].
    simpl. split; [|repeat constructor].
    split; [|intros [H _]; contradiction].
    intros H. apply list_elem_of_singleton in H. discriminate H.
Qed.

Lemma Server_routes_witness :
  Server.server example_upstream
    {| Server.pathname := "/favicon.ico"; Server.query := example_query |}
  = ([], {| Server.code := 404;
            Server.headers := [("Content-Type", "application/json")];
            Server.content := Server.Json (ErrorBody (Error "Not Found")) |}).
Proof.
  apply (proj1 (proj2 (Server_routes example_upstream
                         {| Server.pathname := "/favicon.ico";
                            Server.query := example_query |})));
    discriminate.
Defined.

(** ** Reading the damage strings *)

Lemma remove_dots_app (a b : string) :
  remove_dots (a +:+ b) = remove_dots a +:+ remove_dots b.
Proof.
  induction a as [|c a IH]; [reflexivity|].
  simpl. destruct (Ascii.eqb c "."); rewrite IH; reflexivity.
Qed.

(** X9. The dots of a damage string do not count: a string whose
    characters other than dots are the decimal digits of [n] (with its sign)
    gives for the total the number nearest to [n], however the digits are
    grouped.  That is [n] itself when [n] is a safe integer, below 2^53 in
    magnitude, and a neighbour of [n] beyond: 9.007.199.254.740.993 is read
    as 9007199254740992.  A string with one dot more gives the same total as
    the string without it. *)
Theorem totalDamage_ignores_dots (player : Player) (text : string) :
  player_damageDealt player = Some text ->
  (forall n, remove_dots text = show n ->
     Api.totalDamage player = Ok (Some (round64 n))
     /\ (Z.abs n < 2 ^ 53 -> Api.totalDamage player = Ok (Some n)))
  /\ (text = "9.007.199.254.740.993" ->
      Api.totalDamage player = Ok (Some 9007199254740992))
  /\ (forall a b other,
        text = a +:+ "." +:+ b -> player_damageDealt other = Some (a +:+ b) ->
        Api.totalDamage other = Api.totalDamage player).
Proof.
  intros Htext. unfold Api.totalDamage. rewrite Htext. split; [|split].
  - intros n ->. rewrite parseInt_show. split; [reflexivity|].
    intros Hn. rewrite round64_safe by assumption. reflexivity.
  - intros ->. vm_compute. reflexivity.
  - intros a b other -> ->. rewrite !remove_dots_app. reflexivity.
Qed.

Lemma totalDamage_ignores_dots_witness :
  Api.totalDamage example_player = Ok (Some 1250).
Proof.
  apply (proj2 (proj1 (totalDamage_ignores_dots example_player "1.250" eq_refl) 1250
                  eq_refl)).
  reflexivity.
Defined.

(** ** The rows of the single-player handler *)

Lemma map_throwing_elem_of {A B} (f : A -> result B) (l : list A) (bs : list B) (b : B) :
  map_throwing f l = Ok bs -> b ∈ bs -> exists a, a ∈ l /\ f a = Ok b.
Proof.
  intros Hm. apply map_throwing_Ok in Hm.
  induction Hm as [|a b' l bs Hab _ IH]; intros Hb.
  - apply elem_of_nil in Hb. contradiction.
  - apply elem_of_cons in Hb as [->|Hb].
    + exists a. split; [left|assumption].
    + destruct (IH Hb) as (a' & Ha' & Hf). exists a'. split; [right; assumption|assumption].
Qed.

Lemma cleanRow_name (total : option Z) (dict : Dictionary) (skill : SkillRecord)
    (row : Row) :
  Api.cleanRow total dict skill = Ok row ->
  row_name row
  = or_else (dict_get dict (skill_id skill))
            (JStr ("Unknown Skill (" +:+ show (skill_id skill) +:+ ")")).
Proof.
  unfold Api.cleanRow.
  destruct (skill_damage skill) as [text|]; simpl; [|discriminate].
  destruct (skill_hitCounts skill) as [hitCounts|]; simpl; [|discriminate].
  intros [= <-]. reflexivity.
Qed.

Lemma Api_analyze_rows (up : Upstream) (player : Player) (rows : list Row) :
  snd (Api.analyze up player) = Ok {| status := 200; body := RowsBody rows |} ->
  exists total skills unsorted,
    Api.totalDamage player = Ok total /\ total <> Some 0
    /\ player_skills player = Some skills
    /\ map_throwing
         (Api.cleanRow total (dict_of_entries (api_entry up <$> Api.uniqueSkillIds skills)))
         skills = Ok unsorted
    /\ rows = sort Api.byDamage unsorted.
Proof.
  destruct (Api_analyze_cases up player)
    as [[e ->]|[[_ ->]|(total & skills & Htotal & Hnz & Hskills & ->)]]; simpl;
    try discriminate.
  rewrite cleanedData_unfold.
  destruct (map_throwing _ skills) as [unsorted|e] eqn:Hm; [|discriminate].
  intros [= <-]. exists total, skills, unsorted. auto.
Qed.

(** X10. In an answer with rows there is one row per record of the
    player: the rows are, in another order, the rows made of the records one
    by one.  The row of a record has for its damage what [parseInt] reads in
    the damage string of this record, and for its name the entry of the
    dictionary for the identifier of this record: ["Basic Attack"] for an
    identifier below zero, otherwise what the lookup of this identifier
    settled on.  The name is truthy, and the aggregator's own fallback
    ["Unknown Skill (id)"] for a missing key is never used. *)
Theorem Api_rows_named_by_dictionary (up : Upstream) (player : Player) (rows : list Row) :
  snd (Api.analyze up player) = Ok {| status := 200; body := RowsBody rows |} ->
  exists skills dict unsorted,
    player_skills player = Some skills
    /\ snd (Api.skillDictionary up (Api.uniqueSkillIds skills)) = Ok dict
    /\ rows ≡ₚ unsorted
    /\ length rows = length skills
    /\ Forall2
         (fun skill row =>
            dict !! show (skill_id skill) = Some (row_name row)
            /\ truthy (row_name row) = true
            /\ (skill_id skill < 0 -> row_name row = JStr "Basic Attack")
            /\ (0 <= skill_id skill ->
                row_name row = settled (skill_id skill) (skill_service up (skill_id skill)))
            /\ exists text,
                 skill_damage skill = Some text
                 /\ row_damage row = parseInt (remove_dots text))
         skills unsorted.
Proof.
  intros Hrows.
  destruct (Api_analyze_rows up player rows Hrows)
    as (total & skills & unsorted & _ & _ & Hskills & Hm & ->).
  exists skills. eexists. exists unsorted. rewrite Api_skillDictionary_eq. simpl.
  split; [assumption|]. split; [reflexivity|]. split; [apply sort_perm|].
  apply map_throwing_Ok in Hm.
  split.
  { rewrite (sort_perm Api.byDamage unsorted). symmetry. eapply Forall2_length, Hm. }
  apply Forall2_same_length_lookup. split; [eapply Forall2_length, Hm|].
  intros i skill row Hskill Hrow.
  pose proof (Forall2_lookup_lr _ _ _ _ _ _ Hm Hskill Hrow) as Hclean.
  pose proof (list_elem_of_lookup_2 _ _ _ Hskill) as Hin.
  pose proof (cleanRow_name _ _ _ _ Hclean) as Hname. unfold dict_get in Hname.
  apply cleanRow_Ok in Hclean as (text & Ht & _ & Hrow_eq).
  assert (skill_id skill ∈ Api.uniqueSkillIds skills) as Hid.
  { apply elem_of_Set_of, list_elem_of_fmap. eauto. }
  rewrite (api_dictionary_lookup up _ _ Hid) in *. simpl in Hname.
  assert (truthy (if skill_id skill <? 0 then JStr "Basic Attack"
                  else settled (skill_id skill) (skill_service up (skill_id skill)))
          = true) as Htruthy.
  { destruct (skill_id skill <? 0); [reflexivity|apply settled_truthy]. }
  unfold or_else in Hname. rewrite Htruthy in Hname. rewrite Hname.
  split; [reflexivity|]. split; [assumption|]. split; [|split].
  - intros Hneg. destruct (Z.ltb_spec (skill_id skill) 0); [reflexivity|lia].
  - intros Hpos. destruct (Z.ltb_spec (skill_id skill) 0); [lia|reflexivity].
  - exists text. split; [assumption|]. rewrite Hrow_eq. reflexivity.
Qed.

Lemma Api_rows_named_by_dictionary_witness :
  exists skills dict unsorted,
    player_skills example_player = Some skills
    /\ snd (Api.skillDictionary example_upstream (Api.uniqueSkillIds skills)) = Ok dict
    /\ [ {| row_name := JStr "Fireball"; row_damage := Some 1000;
            row_percent := of_Z 80; row_crit_hits := "2 / 10";
            row_crit_rate := of_Z 20 |};
         {| row_name := JStr "Basic Attack"; row_damage := Some 250;
            row_percent := of_Z 20; row_crit_hits := "0 / 3";
            row_crit_rate := of_Z 0 |} ] ≡ₚ unsorted
    /\ length
         [ {| row_name := JStr "Fireball"; row_damage := Some 1000;
              row_percent := of_Z 80; row_crit_hits := "2 / 10";
              row_crit_rate := of_Z 20 |};
           {| row_name := JStr "Basic Attack"; row_damage := Some 250;
              row_percent := of_Z 20; row_crit_hits := "0 / 3";
              row_crit_rate := of_Z 0 |} ] = length skills
    /\ Forall2
         (fun skill row =>
            dict !! show (skill_id skill) = Some (row_name row)
            /\ truthy (row_name row) = true
            /\ (skill_id skill < 0 -> row_name row = JStr "Basic Attack")
            /\ (0 <= skill_id skill ->
                row_name row
                = settled (skill_id skill)
                    (skill_service example_upstream (skill_id skill)))
            /\ exists text,
                 skill_damage skill = Some text
                 /\ row_damage row = parseInt (remove_dots text))
         skills unsorted.
Proof.
  apply (Api_rows_named_by_dictionary example_upstream example_player).
  vm_compute. reflexivity.
Defined.

(** ** NaN in the rows *)

Lemma cleanRow_fields (total : option Z) (dict : Dictionary) (skill : SkillRecord)
    (row : Row) :
  Api.cleanRow total dict skill = Ok row ->
  exists text hitCounts,
    skill_damage skill = Some text /\ skill_hitCounts skill = Some hitCounts
    /\ row_damage row = parseInt (remove_dots text)
    /\ row_percent row
       = parseFloat (toFixed1 (fmul (fdiv (of_int (parseInt (remove_dots text)))
                                          (of_int total)) (of_Z 100)))
    /\ row_crit_hits row
       = show (match hitCounts !! 1%nat with
               | Some c => if c =? 0 then 0 else c
               | None => 0
               end) +:+ " / " +:+ show (foldl Z.add 0 hitCounts)
    /\ row_crit_rate row
       = if 0 <? foldl Z.add 0 hitCounts
         then parseFloat
                (toFixed1 (fmul (fdiv (of_Z (match hitCounts !! 1%nat with
                                             | Some c => if c =? 0 then 0 else c
                                             | None => 0
                                             end))
                                      (of_Z (foldl Z.add 0 hitCounts))) (of_Z 100)))
         else of_Z 0.
Proof.
  unfold Api.cleanRow.
  destruct (skill_damage skill) as [text|]; simpl; [|discriminate].
  destruct (skill_hitCounts skill) as [hitCounts|]; simpl; [|discriminate].
  intros [= <-]. exists text, hitCounts. simpl. auto 10.
Qed.

(** X11. NaN in the rows.  When the player's total is a non-zero safe
    integer and the hit counts of every record add up to less than 2^53, no
    row has NaN for its crit rate, and a row has NaN for its percent exactly
    when its damage string did not read as a number.  A total that does not
    read as a number is not caught by the handler: then every row has NaN
    for its percent. *)
Theorem Api_rows_NaN (up : Upstream) (player : Player) (rows : list Row) :
  snd (Api.analyze up player) = Ok {| status := 200; body := RowsBody rows |} ->
  (forall t,
     Api.totalDamage player = Ok (Some t) -> Z.abs t < 2 ^ 53 ->
     (forall skill hitCounts,
        skill ∈ skills_of player -> skill_hitCounts skill = Some hitCounts ->
        foldl Z.add 0 hitCounts < 2 ^ 53) ->
     forall row, row ∈ rows ->
       is_nan (row_crit_rate row) = false
       /\ (is_nan (row_percent row) = true <-> row_damage row = None))
  /\ (Api.totalDamage player = Ok None ->
      forall row, row ∈ rows -> is_nan (row_percent row) = true).
Proof.
  intros Hrows.
  destruct (Api_analyze_rows up player rows Hrows)
    as (total & skills & unsorted & Htotal & Hnz & Hskills & Hm & ->).
  split.
  - intros t Ht Hsafe Hhits row Hrow. rewrite Htotal in Ht. injection Ht as ->.
    rewrite (sort_perm Api.byDamage unsorted) in Hrow.
    destruct (map_throwing_elem_of _ _ _ _ Hm Hrow) as (skill & Hin & Hclean).
    apply cleanRow_fields in Hclean
      as (text & hitCounts & _ & Hhc & -> & -> & _ & ->).
    assert (t <> 0) as Ht0 by congruence.
    split.
    + destruct (Z.ltb_spec 0 (foldl Z.add 0 hitCounts)) as [Hpos|_]; [|reflexivity].
      apply percent_not_nan; [lia|].
      assert (foldl Z.add 0 hitCounts < 2 ^ 53); [|lia].
      apply (Hhits skill); [|assumption]. unfold skills_of. rewrite Hskills. assumption.
    + destruct (parseInt (remove_dots text)) as [d|]; simpl.
      * rewrite percent_not_nan by assumption. split; discriminate.
      * split; reflexivity.
  - intros Hnan row Hrow. rewrite Htotal in Hnan. injection Hnan as ->.
    rewrite (sort_perm Api.byDamage unsorted) in Hrow.
    destruct (map_throwing_elem_of _ _ _ _ Hm Hrow) as (skill & Hin & Hclean).
    apply cleanRow_fields in Hclean as (text & hitCounts & _ & _ & _ & -> & _).
    simpl. destruct (of_int (parseInt (remove_dots text))); reflexivity.
Qed.

Lemma Api_rows_NaN_witness :
  is_nan (row_crit_rate
            {| row_name := JStr "Fireball"; row_damage := Some 1000;
               row_percent := of_Z 80; row_crit_hits := "2 / 10";
               row_crit_rate := of_Z 20 |}) = false.
Proof.
  refine (proj1 (proj1 (Api_rows_NaN example_upstream example_player
                          [ {| row_name := JStr "Fireball"; row_damage := Some 1000;
                               row_percent := of_Z 80; row_crit_hits := "2 / 10";
                               row_crit_rate := of_Z 20 |};
                            {| row_name := JStr "Basic Attack"; row_damage := Some 250;
                               row_percent := of_Z 20; row_crit_hits := "0 / 3";
                               row_crit_rate := of_Z 0 |} ] _)
                   1250 eq_refl _ _ _ _)).
  - vm_compute. reflexivity.
  - reflexivity.
  - intros skill hitCounts Hskill Hhc.
    apply elem_of_cons in Hskill as [->|Hskill].
    + injection Hhc as <-. reflexivity.
    + apply list_elem_of_singleton in Hskill. subst skill.
      injection Hhc as <-. reflexivity.
  - left.
Defined.

Lemma of_Z_safe_positive (z : Z) :
  0 < z < 2 ^ 53 -> exists m e, of_Z z = S754_finite false m e.
Proof.
  intros [Hpos Hsafe]. destruct z as [|p|p]; try lia.
  apply (binary_round_safe false p Hsafe).
Qed.

(** X12. A record without critical hits, because its array of hit counts
    has fewer than two entries or has 0 at index 1, gets ["0 / total"] for
    its crit hits and exactly 0 for its crit rate; this includes the record
    without any hit, for which no quotient is formed (["0 / 0"], rate 0, not
    NaN).  This is for hit counts as the telemetry service has them: none is
    below zero, and they add up to less than 2^53, so that [total], their
    sum as integers, is the sum that [reduce] computes in binary64. *)
Theorem cleanRow_without_crits (total : option Z) (dict : Dictionary)
    (skill : SkillRecord) (hitCounts : list Z) (row : Row) :
  Api.cleanRow total dict skill = Ok row ->
  skill_hitCounts skill = Some hitCounts ->
  hitCounts !! 1%nat = None \/ hitCounts !! 1%nat = Some 0 ->
  Forall (fun h => 0 <= h) hitCounts ->
  foldl Z.add 0 hitCounts < 2 ^ 53 ->
  row_crit_hits row = "0 / " +:+ show (foldl Z.add 0 hitCounts)
  /\ row_crit_rate row = of_Z 0.
Proof.
  intros Hclean Hhc Hcrit _ Hsafe.
  apply cleanRow_fields in Hclean as (text & hc & _ & Hhc' & _ & _ & -> & ->).
  rewrite Hhc in Hhc'. injection Hhc' as <-.
  assert (match hitCounts !! 1%nat with
          | Some c => if c =? 0 then 0 else c
          | None => 0
          end = 0) as ->.
  { destruct Hcrit as [->| ->]; reflexivity. }
  split; [reflexivity|].
  destruct (Z.ltb_spec 0 (foldl Z.add 0 hitCounts)) as [Hpos|_]; [|reflexivity].
  destruct (of_Z_safe_positive (foldl Z.add 0 hitCounts)) as (m & e & ->); [lia|].
  reflexivity.
Qed.

Lemma cleanRow_without_crits_witness :
  row_crit_hits
    {| row_name := JStr "Unknown Skill (-1)"; row_damage := Some 250;
       row_percent := of_Z 20; row_crit_hits := "0 / 3"; row_crit_rate := of_Z 0 |}
  = "0 / " +:+ show (foldl Z.add 0 [3; 0]).
Proof.
  refine (proj1 (cleanRow_without_crits (Some 1250) ∅ basic_attack [3; 0] _ _ eq_refl
                   (or_intror eq_refl) _ _)).
  - vm_compute. reflexivity.
  - repeat constructor; discriminate.
  - reflexivity.
Defined.

(** ** The page and the single-player handler *)















(** X14. Where the page and the single-player endpoint part ways.  A
    player whose id is stored as a string is never found by the page, which
    compares with [===] against a parsed number, while the endpoint finds
    it by its string.  A record whose identifier is below zero and is not
    -1 is named ["Unknown Skill (id)"] by the page, because the full-data
    dictionary has no key for it, and ["Basic Attack"] by the endpoint. *)
Theorem page_differs_from_endpoint (up : Upstream) :
  (forall s p playerId,
     player_id p = JStr s ->
     Client.isPlayer playerId p = false /\ Api.isPlayer s p = true)
  /\ (forall runData skills skill total rowC rowA,
        skill ∈ skills -> skill_id skill < 0 -> skill_id skill <> -1 ->
        Client.cleanRow total
          (<["-1" := JStr "Basic Attack"]>
             (dict_of_entries (settled_entry up <$> Index.uniqueSkillIds runData)))
          skill = Ok rowC ->
        Api.cleanRow total
          (dict_of_entries (api_entry up <$> Api.uniqueSkillIds skills)) skill
        = Ok rowA ->
        row_name rowC = JStr ("Unknown Skill (" +:+ show (skill_id skill) +:+ ")")
        /\ row_name rowA = JStr "Basic Attack").
Proof.
  split.
  - intros s p playerId Hp. unfold Client.isPlayer, Api.isPlayer, loose_eq_str.
    rewrite Hp. split; [reflexivity|apply String.eqb_refl].
  - intros runData skills skill total rowC rowA Hin Hneg Hne HC HA.
    apply cleanRow_name in HC, HA. rewrite HC, HA. unfold dict_get. split.
    + destruct (_ !! show (skill_id skill)) as [v|] eqn:Hv; [|reflexivity].
      assert (is_Some ((<["-1" := JStr "Basic Attack"]>
                (dict_of_entries (settled_entry up <$> Index.uniqueSkillIds runData)))
                !! show (skill_id skill))) as Hsome by eauto.
      apply full_dictionary_keys in Hsome as [Hk|(X & _ & Hpos & Hk)].
      * rewrite <- show_minus_one in Hk. apply show_inj in Hk. contradiction.
      * apply show_inj in Hk. lia.
    + rewrite api_dictionary_lookup
        by (apply elem_of_Set_of, list_elem_of_fmap; eauto).
      destruct (Z.ltb_spec (skill_id skill) 0); [reflexivity|lia].
Qed.

Lemma page_differs_from_endpoint_witness :
  row_name {| row_name := JStr "Unknown Skill (-2)"; row_damage := Some 10;
              row_percent := of_Z 100; row_crit_hits := "0 / 1";
              row_crit_rate := of_Z 0 |}
  = JStr ("Unknown Skill (" +:+ show (skill_id other_attack) +:+ ")").
Proof.
  refine (proj1 (proj2 (page_differs_from_endpoint example_upstream)
                   other_run [other_attack] other_attack (Some 10) _
                   {| row_name := JStr "Basic Attack"; row_damage := Some 10;
                      row_percent := of_Z 100; row_crit_hits := "0 / 1";
                      row_crit_rate := of_Z 0 |} _ _ _ _ _)).
  - left.
  - reflexivity.
  - discriminate.
  - vm_compute. reflexivity.
  - vm_compute. reflexivity.
Defined.

(** ** What the skill table cannot change *)

Lemma visible_keys (up up' : Upstream) (ids : list Z) (k : string) :
  is_Some ((<["-1" := JStr "Basic Attack"]>
              (dict_of_entries (settled_entry up <$> ids))) !! k)
  -> is_Some ((<["-1" := JStr "Basic Attack"]>
                 (dict_of_entries (settled_entry up' <$> ids))) !! k).
Proof.
  destruct (decide (k = "-1")) as [->|Hne].
  - rewrite !lookup_insert_eq. eauto.
  - rewrite !lookup_insert_ne by congruence. intros [v Hv].
    apply dict_of_entries_key in Hv as (X & HX & -> & _).
    unfold settled_entry. rewrite dict_of_entries_elem by assumption. eauto.
Qed.

(** X15. The skill table has no say in how the full-data handler answers:
    two upstreams with the same telemetry service get the same calls and
    the same status, and where the answer is 200 the same run and
    dictionaries with the same keys; only the names can differ.  Where the
    answer is not 200 the whole answer is the same. *)
Theorem RunData_handler_skill_table_independent (up up' : Upstream) (query : Query) :
  run_service up = run_service up' ->
  fst (RunData.handler up query) = fst (RunData.handler up' query)
  /\ status (snd (RunData.handler up query)) = status (snd (RunData.handler up' query))
  /\ ((exists runData dict dict',
         body (snd (RunData.handler up query)) = RunBody runData dict
         /\ body (snd (RunData.handler up' query)) = RunBody runData dict'
         /\ status (snd (RunData.handler up query)) = 200
         /\ forall k, is_Some (dict !! k) <-> is_Some (dict' !! k))
      \/ (status (snd (RunData.handler up query)) <> 200
          /\ snd (RunData.handler up query) = snd (RunData.handler up' query))).
Proof.
  intros Hsame. unfold RunData.handler, fetch_run. rewrite <- Hsame.
  destruct (missing (query_id query)); simpl.
  { split; [reflexivity|]. split; [reflexivity|]. right. split; [discriminate|reflexivity]. }
  destruct (run_service up _) as [res|e]; simpl.
  2: { split; [reflexivity|]. split; [reflexivity|]. right.
       split; [discriminate|reflexivity]. }
  destruct (ok res); simpl.
  2: { split; [reflexivity|]. split; [reflexivity|]. right.
       split; [discriminate|reflexivity]. }
  destruct (json res) as [runData|e]; simpl.
  2: { split; [reflexivity|]. split; [reflexivity|]. right.
       split; [discriminate|reflexivity]. }
  change (RunData.skillDictionary ?u (RunData.uniqueSkillIds runData))
    with (Index.skillDictionary u (Index.uniqueSkillIds runData)).
  rewrite !Index_skillDictionary_eq. simpl.
  split; [reflexivity|]. split; [reflexivity|]. left.
  eexists. eexists. eexists. split; [reflexivity|]. split; [reflexivity|].
  split; [reflexivity|]. intros k. split; apply visible_keys.
Qed.

Lemma RunData_handler_skill_table_independent_witness :
  status (snd (RunData.handler example_upstream example_query))
  = status (snd (RunData.handler
                   {| run_service := run_service example_upstream;
                      skill_service := fun _ => Throw NetworkError |}
                   example_query)).
Proof.
  apply (RunData_handler_skill_table_independent example_upstream
           {| run_service := run_service example_upstream;
              skill_service := fun _ => Throw NetworkError |} example_query eq_refl).
Defined.

(** ** The order of the lookups *)

Lemma foldl_Set_add_fresh (l s : list Z) :
  NoDup (s ++ l) -> foldl Set_add s l = s ++ l.
Proof.
  revert s. induction l as [|x l IH]; intros s Hnodup; simpl.
  - rewrite app_nil_r. reflexivity.
  - assert (x ∉ s) as Hx.
    { apply NoDup_app in Hnodup as (_ & Hdisjoint & _).
      intros Hin. apply (Hdisjoint x Hin). left. }
    unfold Set_add at 2. destruct (decide (x ∈ s)); [contradiction|].
    rewrite IH; rewrite <- app_assoc; [reflexivity|exact Hnodup].
Qed.

Lemma Set_of_first_occurrences (l : list Z) (x : Z) :
  Set_of (l ++ [x]) = if decide (x ∈ l) then Set_of l else Set_of l ++ [x].
Proof.
  unfold Set_of. rewrite foldl_app. simpl.
  pose proof (elem_of_foldl_Set_add l [] x) as Hmem.
  set (s := foldl Set_add [] l) in *. unfold Set_add.
  destruct (decide (x ∈ s)) as [Hin|Hnin]; destruct (decide (x ∈ l)) as [Hl|Hl];
    try reflexivity.
  - apply Hmem in Hin as [Hin|Hin]; [|contradiction].
    apply elem_of_nil in Hin. contradiction.
  - destruct Hnin. apply Hmem. auto.
Qed.

(** X16. The lookups follow the records.  The collector keeps the
    identifiers in the order of their first occurrence, so for a player
    whose total is not zero the handler looks up, in the order of the
    records, the identifiers from 0 upwards that have not occurred in an
    earlier record; when all identifiers differ, that is one lookup per
    record with such an identifier, in record order. *)
Theorem Api_lookups_follow_records (up : Upstream) (player : Player) (text : string)
    (skills : list SkillRecord) :
  player_damageDealt player = Some text ->
  parseInt (remove_dots text) <> Some 0 ->
  player_skills player = Some skills ->
  fst (Api.analyze up player)
  = GetSkill <$> filter (fun X => 0 <= X) (Api.uniqueSkillIds skills)
  /\ (forall earlier skill,
        Api.uniqueSkillIds (earlier ++ [skill])
        = if decide (skill_id skill ∈ skill_id <$> earlier)
          then Api.uniqueSkillIds earlier
          else Api.uniqueSkillIds earlier ++ [skill_id skill])
  /\ (NoDup (skill_id <$> skills) ->
      fst (Api.analyze up player)
      = GetSkill <$> filter (fun X => 0 <= X) (skill_id <$> skills)).
Proof.
  intros Htext Hnz Hskills.
  assert (fst (Api.analyze up player)
          = GetSkill <$> filter (fun X => 0 <= X) (Api.uniqueSkillIds skills)) as Hcalls.
  { destruct (Api_analyze_cases up player)
      as [[e He]|[[Hzero _]|(total & skills' & _ & _ & Hskills' & ->)]].
    - rewrite He. revert He. unfold Api.analyze, Api.totalDamage.
      rewrite Htext, Hskills. simpl. rewrite bool_decide_eq_false_2 by assumption.
      simpl. rewrite Api_skillDictionary_eq. simpl. rewrite api_calls_filter.
      destruct (Api.cleanedData _ _ skills); simpl; rewrite app_nil_r;
        intros [= H]; rewrite H; reflexivity.
    - exfalso. unfold Api.totalDamage in Hzero. rewrite Htext in Hzero.
      injection Hzero as Hzero. contradiction.
    - rewrite Hskills in Hskills'. injection Hskills' as <-. reflexivity. }
  split; [exact Hcalls|]. split.
  - intros earlier skill. unfold Api.uniqueSkillIds. rewrite fmap_app.
    apply Set_of_first_occurrences.
  - intros Hnodup. rewrite Hcalls. unfold Api.uniqueSkillIds, Set_of.
    rewrite foldl_Set_add_fresh by exact Hnodup. reflexivity.
Qed.

Lemma Api_lookups_follow_records_witness :
  fst (Api.analyze example_upstream example_player)
  = GetSkill <$> filter (fun X => 0 <= X) (skill_id <$> [basic_attack; fireball]).
Proof.
  refine (proj2 (proj2 (Api_lookups_follow_records example_upstream example_player
                          "1.250" [basic_attack; fireball] eq_refl _ eq_refl)) _).
  - intros H. vm_compute in H. discriminate H.
  - repeat constructor; intros H.
    + apply list_elem_of_singleton in H. discriminate H.
    + apply elem_of_nil in H. exact H.
Defined.
